(** * Currency conversion service: rate resolution, cache and fallback

    A shallow embedding of
    - [models.py] (Currency, ConversionRequest, ConversionResponse,
      ExchangeRateData),
    - [commons/redis_cache.py] (RedisCache),
    - [commons/exchange_rate_client.py] (ExchangeRateClient),
    - [commons/service.py] (CurrencyConversionService).

    Python floats are binary64 numbers: they are modelled by Rocq's primitive
    floats.  The coroutines run in a state-and-exception monad over a
    [world] that holds the Redis database, the provider's answers and the
    trace of calls made on the two collaborators. *)

From Stdlib Require Import ZArith List Bool Floats.
From stdpp Require Import base option strings gmap.
Import ListNotations.

Set Warnings "-inexact-float".
Open Scope Z_scope.

(** ** models.py *)

Module Models.

(** [class Currency(str, Enum)] *)
Inductive Currency := USD | EUR | GBP | JPY | INR | AED | UZS.

#[export] Instance Currency_eq_dec : EqDecision Currency.
Proof. solve_decision. Defined.

(** [Currency.value] *)
Definition value (c : Currency) : string :=
  match c with
  | USD => "USD" | EUR => "EUR" | GBP => "GBP" | JPY => "JPY"
  | INR => "INR" | AED => "AED" | UZS => "UZS"
  end.

(** [[c for c in Currency]] *)
Definition all_currencies : list Currency := [USD; EUR; GBP; JPY; INR; AED; UZS].

(** [class ConversionRequest(BaseModel)] *)
Record ConversionRequest := {
  amount : float;
  from_currency : Currency;
  to_currency : Currency
}.

(** [class ConversionResponse(BaseModel)]; the timestamp is a reading of the
    clock of the world. *)
Record ConversionResponse := {
  r_amount : float;
  r_from_currency : Currency;
  r_to_currency : Currency;
  converted_amount : float;
  rate : float;
  timestamp : Z;
  cached : bool
}.

(** [class ExchangeRateData(BaseModel)]: [rates] is a plain [dict], filled
    from the JSON object of the provider. *)
Record ExchangeRateData := {
  rates : gmap string float;
  base : Currency;
  e_timestamp : Z
}.

End Models.
Export Models.

(** ** Python's numbers *)

Module Py.

(** Truth value of a float: [if x:] is taken unless [x == 0.0]. *)
Definition truthy (x : float) : bool := negb (PrimFloat.eqb x 0%float).

(** Truth value of an [Optional[float]]: [None] and zero are false. *)
Definition truthy_opt (o : option float) : bool :=
  match o with
  | Some x => truthy x
  | None => false
  end.

(** [a == b] where [a] is an [Optional[float]] and [b] a float. *)
Definition opt_eq (a : option float) (b : float) : bool :=
  match a with
  | Some x => PrimFloat.eqb x b
  | None => false
  end.

(** Nearest integer to [num / den], ties to even ([den] positive). *)
Definition div_half_even (num : Z) (den : Z) : Z :=
  let q := num / den in
  let r := num mod den in
  match 2 * r ?= den with
  | Lt => q
  | Gt => q + 1
  | Eq => if Z.even q then q else q + 1
  end.

(** The binary64 number nearest to [n / 100], with sign [s]. *)
Definition of_hundredths (s : bool) (n : Z) : float :=
  match n with
  | Zpos p =>
      SF2Prim (SFdiv prec emax (S754_finite s p 0) (S754_finite false 100 0))
  | _ => if s then neg_zero else zero
  end.

(** [round(x, 2)]: the exact value of [x] is rounded to two decimals, ties
    to even, and the decimal is read back as the nearest float.  Zeros,
    infinities and NaN are returned as they are. *)
Definition round2 (x : float) : float :=
  match Prim2SF x with
  | S754_finite s m e =>
      let n :=
        match e with
        | Zneg k => div_half_even (Zpos m * 100) (Zpos (2 ^ k)%positive)
        | _ => Zpos m * 100 * 2 ^ e
        end in
      of_hundredths s n
  | _ => x
  end.

End Py.

(** ** Exceptions, the world and the monad of coroutines *)

(** The messages of the [ValueError]s the program raises, kept structured:
    the f-strings of the source print exactly these fields. *)
Inductive message :=
| AmountNotPositive                       (* "Amount must be greater than 0" *)
| ApiError (info : string)                (* "API xatosi: {info}" *)
| RateNotFound (from_c to_c : Currency) (available : gset string)
                                          (* "Kurs topilmadi: ... Available rates: [...]" *)
| NoRatesFound (from_c : Currency) (to_cs : list Currency)
                                          (* "Hech bir kurs topilmadi: ..." *)
| CouldNotGetRate (from_c to_c : Currency)  (* "Could not get rate for A -> B" *)
| AllBatchFailed.                         (* "All batch conversions failed" *)

Inductive exn :=
| ValueError (m : message)
| RequestError                 (* httpx.RequestError: transport, timeout *)
| HTTPStatusError (code : Z)   (* raise_for_status *)
| RedisError                   (* any exception of the redis client *)
| JSONDecodeError.

Inductive result (A : Type) :=
| Ok (a : A)
| Raise (e : exn).
Arguments Ok {A} a.
Arguments Raise {A} e.

Definition is_ok {A} (r : result A) : bool :=
  match r with Ok _ => true | Raise _ => false end.

(** What a key of the Redis database holds.  [set] writes [json.dumps] of a
    float, which [json.loads] reads back as the same float; a key written by
    somebody else may hold the text [null] or bytes that are not JSON.  A
    key that holds other JSON (a string, an array, an object), which
    [json.loads] would return as it is, is outside this model: a lookup
    here misses or returns a number, and the theorems on [convert] that
    depend on the lookup say which. *)
Inductive payload :=
| JsonNumber (f : float)
| JsonNull
| NotJson.

Definition json_dumps (v : float) : payload := JsonNumber v.

Definition json_loads (p : payload) : result (option float) :=
  match p with
  | JsonNumber f => Ok (Some f)
  | JsonNull => Ok None
  | NotJson => Raise JSONDecodeError
  end.

(** The query string of one request to the provider; [symbols] is the list
    that the source joins with commas. *)
Record api_params := {
  access_key : option string;
  base_param : option string;
  symbols : option (list Currency)
}.

(** The JSON object of a 2xx answer, as [get_exchange_rates] reads it: an
    object whose [rates], when present, maps codes to numbers.  A 2xx body
    that is not JSON, not an object, or whose fields have other types is
    outside this model. *)
Record api_body := {
  success : bool;                    (* data.get("success", True) *)
  error_info : option string;        (* "error" in data, with its info *)
  body_rates : gmap string float     (* data.get("rates", {}) *)
}.

Inductive http_outcome :=
| Unreachable                  (* client.get raises httpx.RequestError *)
| BadStatus (code : Z)         (* raise_for_status raises *)
| Body (data : api_body).

(** Calls made on the two collaborators, in order. *)
Inductive event :=
| CacheGet (key : string)
| CacheSet (key : string) (v : float) (ttl : Z)
| CacheDelete (key : string)
| CacheClear
| CacheExists (key : string)
| HttpGet (p : api_params).

Record world := {
  redis_client : bool;                   (* RedisCache._client is not None *)
  redis_db : gmap string (payload * Z);  (* key -> value and its TTL *)
  redis_fault : nat -> bool;             (* does the n-th command sent raise? *)
  redis_sent : nat;                      (* commands sent to Redis so far *)
  provider : nat -> api_params -> http_outcome;  (* answer to the n-th request *)
  http_sent : nat;                       (* requests sent to the provider so far *)
  trace : list event;
  clock : Z                              (* datetime.now() *)
}.

Definition M (A : Type) : Type := world -> result A * world.

Definition ret {A} (a : A) : M A := fun w => (Ok a, w).

Definition raise {A} (e : exn) : M A := fun w => (Raise e, w).

Definition bind {A B} (m : M A) (k : A -> M B) : M B :=
  fun w =>
    match m w with
    | (Ok a, w') => k a w'
    | (Raise e, w') => (Raise e, w')
    end.

(** [try: m except Exception as e: h e] *)
Definition try_except {A} (m : M A) (h : exn -> M A) : M A :=
  fun w =>
    match m w with
    | (Ok a, w') => (Ok a, w')
    | (Raise e, w') => h e w'
    end.

Notation "'let*' x := c1 'in' c2" := (bind c1 (fun x => c2))
  (at level 10, x name, c1 at level 100, c2 at level 200).

(** Record a call in the trace. *)
Definition log (e : event) : M unit :=
  fun w =>
    (Ok tt,
     {| redis_client := redis_client w; redis_db := redis_db w;
        redis_fault := redis_fault w; redis_sent := redis_sent w;
        provider := provider w; http_sent := http_sent w;
        trace := trace w ++ [e]; clock := clock w |}).

(** [datetime.now()]: the passing of time is not modelled. *)
Definition datetime_now : M Z := fun w => (Ok (clock w), w).

(** ** commons/redis_cache.py *)

Module RedisCache.

(** One command awaited on [self._client]: it raises when the server fails
    on it, and takes effect otherwise. *)
Definition send {A} (effect : world -> A * gmap string (payload * Z)) : M A :=
  fun w =>
    let n := redis_sent w in
    if redis_fault w n then
      (Raise RedisError,
       {| redis_client := redis_client w; redis_db := redis_db w;
          redis_fault := redis_fault w; redis_sent := S n;
          provider := provider w; http_sent := http_sent w;
          trace := trace w; clock := clock w |})
    else
      let '(a, db) := effect w in
      (Ok a,
       {| redis_client := redis_client w; redis_db := db;
          redis_fault := redis_fault w; redis_sent := S n;
          provider := provider w; http_sent := http_sent w;
          trace := trace w; clock := clock w |}).

(** [self._client is None] *)
Definition client_is_none : M bool := fun w => (Ok (negb (redis_client w)), w).

Definition GET (key : string) : M (option payload) :=
  send (fun w => (fst <$> redis_db w !! key, redis_db w)).

(** SETEX: the server refuses an expire time that is not positive ("invalid
    expire time") and stores nothing then. *)
Definition SETEX (key : string) (ttl : Z) (s : payload) : M unit :=
  if 0 <? ttl then send (fun w => (tt, <[key := (s, ttl)]> (redis_db w)))
  else
    let* _ := send (fun w => (tt, redis_db w)) in
    raise RedisError.

Definition DEL (key : string) : M unit :=
  send (fun w => (tt, delete key (redis_db w))).

Definition FLUSHDB : M unit :=
  send (fun w => (tt, ∅)).

Definition EXISTS (key : string) : M bool :=
  send (fun w => (bool_decide (is_Some (redis_db w !! key)), redis_db w)).

(** [async def get(self, key)] *)
Definition get (key : string) : M (option float) :=
  let* _ := log (CacheGet key) in
  let* none := client_is_none in
  if none then ret None
  else
    try_except
      (let* value := GET key in
       match value with
       | None => ret None
       | Some s => fun w => (json_loads s, w)
       end)
      (fun e =>
         match e with
         | JSONDecodeError => ret None
         | _ => ret None
         end).

(** [async def set(self, key, value, ttl_seconds)] *)
Definition set (key : string) (v : float) (ttl_seconds : Z) : M unit :=
  let* _ := log (CacheSet key v ttl_seconds) in
  let* none := client_is_none in
  if none then ret tt
  else
    try_except
      (let serialized := json_dumps v in
       SETEX key ttl_seconds serialized)
      (fun _ => ret tt).

(** [async def delete(self, key)] *)
Definition delete (key : string) : M unit :=
  let* _ := log (CacheDelete key) in
  let* none := client_is_none in
  if none then ret tt
  else try_except (DEL key) (fun _ => ret tt).

(** [async def clear(self)] *)
Definition clear : M unit :=
  let* _ := log CacheClear in
  let* none := client_is_none in
  if none then ret tt
  else try_except FLUSHDB (fun _ => ret tt).

(** [async def exists(self, key)] *)
Definition exists_ (key : string) : M bool :=
  let* _ := log (CacheExists key) in
  let* none := client_is_none in
  if none then ret false
  else try_except (EXISTS key) (fun _ => ret false).

End RedisCache.

(** ** commons/exchange_rate_client.py *)

Module ExchangeRateClient.

(** The attributes of the client that the methods read. *)
Record t := {
  api_url : string;
  api_key : string;
  timeout : Z
}.

(** Truth value of a string: [if self.api_key:] *)
Definition nonempty (s : string) : bool :=
  match s with
  | EmptyString => false
  | String _ _ => true
  end.

(** [await client.get(self.api_url, params=params)] *)
Definition http_get (p : api_params) : M http_outcome :=
  fun w =>
    (Ok (provider w (http_sent w) p),
     {| redis_client := redis_client w; redis_db := redis_db w;
        redis_fault := redis_fault w; redis_sent := redis_sent w;
        provider := provider w; http_sent := S (http_sent w);
        trace := trace w ++ [HttpGet p]; clock := clock w |}).

(** The [params] dictionary that [get_exchange_rates] builds. *)
Definition build_params (self : t) (base_currency : Currency)
    (target_currencies : option (list Currency)) : api_params :=
  {| access_key := if nonempty (api_key self) then Some (api_key self) else None;
     base_param := if nonempty (api_key self) then None else Some (value base_currency);
     symbols :=
       match target_currencies with
       | Some (c :: l) => Some (c :: l)
       | _ => None
       end |}.

(** [async def get_exchange_rates(self, base_currency, target_currencies)] *)
Definition get_exchange_rates (self : t) (base_currency : Currency)
    (target_currencies : option (list Currency)) : M ExchangeRateData :=
  let params := build_params self base_currency target_currencies in
  let* response := http_get params in
  match response with
  | Unreachable => raise RequestError
  | BadStatus code => raise (HTTPStatusError code)
  | Body data =>
      if negb (success data) && bool_decide (is_Some (error_info data)) then
        raise (ValueError (ApiError (default "Unknown error"%string (error_info data))))
      else
        let rates := body_rates data in
        let actual_base := if nonempty (api_key self) then EUR else base_currency in
        let* now := datetime_now in
        ret {| rates := rates; base := actual_base; e_timestamp := now |}
  end.

(** The end of [get_rate]: [if rate is None: raise ValueError(...)],
    [return float(rate)]. *)
Definition found_or_raise (from_currency to_currency : Currency)
    (exchange_data : ExchangeRateData) (rate : option float) : M float :=
  match rate with
  | None =>
      raise (ValueError (RateNotFound from_currency to_currency
                           (dom (rates exchange_data))))
  | Some r => ret r
  end.

(** [async def get_rate(self, from_currency, to_currency)] *)
Definition get_rate (self : t) (from_currency to_currency : Currency) : M float :=
  if decide (from_currency = to_currency) then ret 1%float
  else
    try_except
      (if decide (from_currency = EUR) then
         let* exchange_data := get_exchange_rates self EUR (Some [to_currency]) in
         let rate := rates exchange_data !! value to_currency in
         found_or_raise from_currency to_currency exchange_data rate
       else if decide (to_currency = EUR) then
         let* exchange_data := get_exchange_rates self EUR (Some [from_currency]) in
         let eur_to_from := rates exchange_data !! value from_currency in
         let rate :=
           match eur_to_from with
           | Some x => if Py.truthy x then Some (1 / x)%float else None
           | None => None
           end in
         found_or_raise from_currency to_currency exchange_data rate
       else
         let* exchange_data :=
           get_exchange_rates self EUR (Some [from_currency; to_currency]) in
         let eur_to_from := rates exchange_data !! value from_currency in
         let eur_to_to := rates exchange_data !! value to_currency in
         let rate :=
           match eur_to_from, eur_to_to with
           | Some x, Some y =>
               if Py.truthy x && Py.truthy y then Some (y / x)%float else None
           | _, _ => None
           end in
         found_or_raise from_currency to_currency exchange_data rate)
      (fun e => raise e).

(** [list(set([c for c in all_currencies if c != Currency.EUR]))]; the order
    in which Python lists a set is not specified, the first occurrences are
    kept here. *)
Definition currencies_to_fetch (from_currency : Currency)
    (to_currencies : list Currency) : list Currency :=
  remove_dups (filter (fun c => c <> EUR) (from_currency :: to_currencies)).

(** The body of the [for to_curr in to_currencies] loop. *)
Definition derive_into (exchange_data : ExchangeRateData) (from_currency : Currency)
    (result : gmap string float) (to_curr : Currency) : gmap string float :=
  if decide (from_currency = to_curr) then <[value to_curr := 1%float]> result
  else if decide (from_currency = EUR) then
    match rates exchange_data !! value to_curr with
    | Some rate => if Py.truthy rate then <[value to_curr := rate]> result else result
    | None => result
    end
  else if decide (to_curr = EUR) then
    match rates exchange_data !! value from_currency with
    | Some x => if Py.truthy x then <[value to_curr := (1 / x)%float]> result else result
    | None => result
    end
  else
    match rates exchange_data !! value from_currency,
          rates exchange_data !! value to_curr with
    | Some x, Some y =>
        if Py.truthy x && Py.truthy y
        then <[value to_curr := (y / x)%float]> result else result
    | _, _ => result
    end.

(** [async def get_multiple_rates(self, from_currency, to_currencies)] *)
Definition get_multiple_rates (self : t) (from_currency : Currency)
    (to_currencies : list Currency) : M (gmap string float) :=
  try_except
    (let to_fetch := currencies_to_fetch from_currency to_currencies in
     let* exchange_data :=
       get_exchange_rates self EUR
         (match to_fetch with [] => None | _ => Some to_fetch end) in
     let result := fold_left (derive_into exchange_data from_currency) to_currencies ∅ in
     if bool_decide (result = ∅) then
       raise (ValueError (NoRatesFound from_currency to_currencies))
     else ret result)
    (fun e => raise e).

End ExchangeRateClient.

(** ** commons/service.py *)

Module CurrencyConversionService.

Definition CACHE_PREFIX : string := "exchange_rate".

(** [self.client] and [self.ttl]; [self.cache] is the RedisCache of the
    world. *)
Record t := {
  client : ExchangeRateClient.t;
  ttl : Z
}.

(** [__init__]: [self.ttl = ttl_seconds or settings.CACHE_TTL_SECONDS] *)
Definition init (exchange_rate_client : ExchangeRateClient.t)
    (ttl_seconds : option Z) (CACHE_TTL_SECONDS : Z) : t :=
  {| client := exchange_rate_client;
     ttl := match ttl_seconds with
            | Some s => if s =? 0 then CACHE_TTL_SECONDS else s
            | None => CACHE_TTL_SECONDS
            end |}.

(** [def _cache_key(self, from_currency, to_currency)] *)
Definition _cache_key (from_currency to_currency : Currency) : string :=
  CACHE_PREFIX +:+ ":" +:+ value from_currency +:+ ":" +:+ value to_currency.

(** [async def _get_cached_rate(self, key)] *)
Definition _get_cached_rate (key : string) : M (option float) :=
  try_except
    (let* rate := RedisCache.get key in
     match rate with
     | Some r => ret (Some r)
     | None => ret None
     end)
    (fun _ => ret None).

(** [async def _cache_rate(self, key, rate)] *)
Definition _cache_rate (self : t) (key : string) (rate : float) : M unit :=
  try_except (RedisCache.set key rate (ttl self)) (fun _ => ret tt).

(** The dictionary literal of [_get_fallback_rate]. *)
Definition fallback_rates : list ((string * string) * float) :=
  [ (("USD", "EUR"), 0.92); (("USD", "GBP"), 0.79); (("USD", "JPY"), 149.50);
    (("USD", "INR"), 83.12); (("USD", "AED"), 3.67); (("USD", "UZS"), 12755.0);
    (("EUR", "USD"), 1.09); (("EUR", "GBP"), 0.86); (("EUR", "JPY"), 162.50);
    (("GBP", "USD"), 1.27); (("GBP", "EUR"), 1.16);
    (("JPY", "USD"), 0.0067); (("JPY", "EUR"), 0.0062);
    (("INR", "USD"), 0.012); (("INR", "EUR"), 0.011);
    (("AED", "USD"), 0.27); (("AED", "EUR"), 0.25);
    (("UZS", "USD"), 0.000078); (("UZS", "EUR"), 0.000072) ]%float.

(** [d.get(key)] on a dictionary literal. *)
Fixpoint dict_get (d : list ((string * string) * float)) (key : string * string)
    : option float :=
  match d with
  | [] => None
  | (k, v) :: d' => if decide (k = key) then Some v else dict_get d' key
  end.

(** [async def _get_fallback_rate(self, from_currency, to_currency)] *)
Definition _get_fallback_rate (from_currency to_currency : Currency)
    : M (option float) :=
  if decide (from_currency = to_currency) then ret (Some 1%float)
  else
    let key := (value from_currency, value to_currency) in
    let rate := dict_get fallback_rates key in
    ret rate.

(** [async def _get_rate(self, cache_key, from_currency, to_currency)] *)
Definition _get_rate (self : t) (cache_key : string)
    (from_currency to_currency : Currency) : M float :=
  let* cached_rate := _get_cached_rate cache_key in
  match cached_rate with
  | Some r => ret r
  | None =>
      try_except
        (let* rate := ExchangeRateClient.get_rate (client self) from_currency to_currency in
         let* _ := _cache_rate self cache_key rate in
         ret rate)
        (fun _ =>
           let* fallback := _get_fallback_rate from_currency to_currency in
           match fallback with
           | Some r => ret r
           | None => raise (ValueError (CouldNotGetRate from_currency to_currency))
           end)
  end.

(** [async def _was_cached(self, cache_key, rate)] *)
Definition _was_cached (cache_key : string) (rate : float) : M bool :=
  let* cached := _get_cached_rate cache_key in
  ret (Py.opt_eq cached rate).

(** [async def convert(self, request)] *)
Definition convert (self : t) (request : ConversionRequest) : M ConversionResponse :=
  try_except
    (if (amount request <=? 0)%float then raise (ValueError AmountNotPositive)
     else if decide (from_currency request = to_currency request) then
       let* now := datetime_now in
       ret {| r_amount := amount request;
              r_from_currency := from_currency request;
              r_to_currency := to_currency request;
              converted_amount := amount request;
              rate := 1%float;
              timestamp := now;
              cached := false |}
     else
       let cache_key := _cache_key (from_currency request) (to_currency request) in
       let* rate := _get_rate self cache_key (from_currency request) (to_currency request) in
       let converted_amount := (amount request * rate)%float in
       let* now := datetime_now in
       let* was := _was_cached cache_key rate in
       ret {| r_amount := amount request;
              r_from_currency := from_currency request;
              r_to_currency := to_currency request;
              converted_amount := Py.round2 converted_amount;
              rate := rate;
              timestamp := now;
              cached := was |})
    (fun e => raise e).

(** [await asyncio.gather( *tasks, return_exceptions=True)]: every task runs
    and its exception, if any, is a result.  The tasks are run one after the
    other, in the order of the list. *)
Fixpoint gather {A} (tasks : list (M A)) : M (list (result A)) :=
  match tasks with
  | [] => ret []
  | task :: tasks' =>
      fun w =>
        let '(r, w1) := task w in
        let '(rs, w2) := gather tasks' w1 in
        (match rs with
         | Ok l => Ok (r :: l)
         | Raise e => Raise e
         end, w2)
  end.

(** The [for i, result in enumerate(results)] loop: [(successful, errors)]. *)
Fixpoint split_results {A} (results : list (result A)) (i : nat)
    (successful : list A) (errors : list (nat * exn)) : list A * list (nat * exn) :=
  match results with
  | [] => (successful, errors)
  | Raise e :: rest => split_results rest (S i) successful (errors ++ [(i, e)])
  | Ok r :: rest => split_results rest (S i) (successful ++ [r]) errors
  end.

(** [async def convert_batch(self, requests)] *)
Definition convert_batch (self : t) (requests : list ConversionRequest)
    : M (list ConversionResponse) :=
  let tasks := map (convert self) requests in
  try_except
    (let* results := gather tasks in
     let '(successful, errors) := split_results results 0 [] [] in
     match successful with
     | [] => raise (ValueError AllBatchFailed)
     | _ => ret successful
     end)
    (fun e => raise e).

(** [async def clear_cache(self)] *)
Definition clear_cache : M unit :=
  try_except RedisCache.clear (fun e => raise e).

(** [async def get_rate_direct(self, from_currency, to_currency, use_cache)] *)
Definition get_rate_direct (self : t) (from_currency to_currency : Currency)
    (use_cache : bool) : M float :=
  if negb use_cache then
    ExchangeRateClient.get_rate (client self) from_currency to_currency
  else
    let cache_key := _cache_key from_currency to_currency in
    _get_rate self cache_key from_currency to_currency.

End CurrencyConversionService.

Import CurrencyConversionService.

(** ** connections/redis.py *)

Module AsyncRedisConnection.

(** [await self._client.ping()] *)
Definition PING : M unit :=
  RedisCache.send (fun w => (tt, redis_db w)).

(** [async def ping(self)].  The client of the connection is the one the
    cache holds: [RedisCache.connect] copies it, and both are [None] after
    a failed [connect] or a [disconnect]. *)
Definition ping : M bool :=
  let* none := RedisCache.client_is_none in
  if none then ret false
  else
    try_except
      (let* _ := PING in
       ret true)
      (fun _ => ret false).

End AsyncRedisConnection.

(** ** commons/redis_cache.py: connectivity and statistics *)

Module RedisCacheStatus.

(** The fields of the reply to INFO that [get_stats] reads; the world does
    not hold them, so the reply is an argument. *)
Record redis_info := {
  used_memory_human : option string;
  connected_clients : option Z;
  total_commands_processed : option Z
}.

(** The dictionaries [get_stats] returns. *)
Inductive cache_stats :=
| NotConnected                      (* {"status": "not_connected"} *)
| StatsError                        (* {"status": "error"} *)
| Connected (used_memory : string) (connected_clients total_commands : Z)
            (total_keys cached_rates : nat).

(** [async def is_connected(self)] *)
Definition is_connected : M bool := AsyncRedisConnection.ping.

(** [await self._client.info()] *)
Definition INFO (reply : redis_info) : M redis_info :=
  RedisCache.send (fun w => (reply, redis_db w)).

(** [await self._client.dbsize()] *)
Definition DBSIZE : M nat :=
  RedisCache.send (fun w => (size (redis_db w), redis_db w)).

(** A key matches the pattern [exchange_rate:*]. *)
Definition matches_rate_keys (key : string) : bool :=
  String.prefix "exchange_rate:" key.

(** [async for key in self._client.scan_iter(match="exchange_rate:*")],
    counting the keys; the whole iteration is one exchange with the
    server. *)
Definition SCAN_COUNT : M nat :=
  RedisCache.send
    (fun w =>
       (size (filter (fun kv : string * (payload * Z) =>
                        matches_rate_keys (fst kv) = true) (redis_db w)),
        redis_db w)).

(** [async def get_stats(self)] *)
Definition get_stats (reply : redis_info) : M cache_stats :=
  let* none := RedisCache.client_is_none in
  if none then ret NotConnected
  else
    try_except
      (let* info := INFO reply in
       let* db_size := DBSIZE in
       let* exchange_rate_keys := SCAN_COUNT in
       ret (Connected
              (default "N/A"%string (used_memory_human info))
              (default 0 (connected_clients info))
              (default 0 (total_commands_processed info))
              db_size
              exchange_rate_keys))
      (fun _ => ret StatsError).

End RedisCacheStatus.

(** ** commons/service.py: statistics and health *)

Module ServiceStatus.

(** What [get_cache_stats] returns: the statistics, or [{"error": str(e)}]. *)
Inductive stats_reply :=
| Stats (s : RedisCacheStatus.cache_stats)
| StatsFailed (e : exn).

(** [async def get_cache_stats(self)] *)
Definition get_cache_stats (reply : RedisCacheStatus.redis_info) : M stats_reply :=
  try_except
    (let* stats := RedisCacheStatus.get_stats reply in
     ret (Stats stats))
    (fun e => ret (StatsFailed e)).

(** [async def _test_api(self)] *)
Definition _test_api (self : CurrencyConversionService.t) : M bool :=
  try_except
    (let* _ := ExchangeRateClient.get_rate (client self) USD EUR in
     ret true)
    (fun _ => ret false).

(** What [health_check] returns: the three fields, or
    [{"status": "error", "error": str(e)}]. *)
Inductive health_reply :=
| Health (status cache api : string)
| HealthError (e : exn).

(** [async def health_check(self)] *)
Definition health_check (self : CurrencyConversionService.t) : M health_reply :=
  try_except
    (let* is_connected := RedisCacheStatus.is_connected in
     let* api_available := _test_api self in
     ret (Health
            (if is_connected && api_available then "healthy" else "degraded")
            (if is_connected then "connected" else "disconnected")
            (if api_available then "available" else "unavailable")))
    (fun e => ret (HealthError e)).

End ServiceStatus.

(** ** routers.py *)

Module Routers.

(** [str(e)] or a fixed text, the detail of an HTTPException. *)
Inductive detail :=
| DetailOf (e : exn)
| DetailText (s : string).

(** What a route answers: its return value (status 200), or the
    HTTPException it raises. *)
Inductive reply (A : Type) :=
| Reply (body : A)
| HTTPException (status_code : Z) (d : detail).
Arguments Reply {A} body.
Arguments HTTPException {A} status_code d.

(** [isinstance(e, ValueError)]: json.JSONDecodeError is a subclass. *)
Definition is_value_error (e : exn) : bool :=
  match e with
  | ValueError _ | JSONDecodeError => true
  | _ => false
  end.

(** [async def convert(request, service)] *)
Definition convert (service : CurrencyConversionService.t)
    (request : ConversionRequest) (w : world) : reply ConversionResponse * world :=
  match CurrencyConversionService.convert service request w with
  | (Ok response, w') => (Reply response, w')
  | (Raise e, w') =>
      if is_value_error e then (HTTPException 400 (DetailOf e), w')
      else (HTTPException 503 (DetailText "Service unavailable"), w')
  end.

(** [async def batch_convert(requests, service)] *)
Definition batch_convert (service : CurrencyConversionService.t)
    (requests : list ConversionRequest) (w : world)
    : reply (list ConversionResponse) * world :=
  match CurrencyConversionService.convert_batch service requests w with
  | (Ok responses, w') => (Reply responses, w')
  | (Raise _, w') => (HTTPException 503 (DetailText "Batch conversion failed"), w')
  end.

End Routers.

(** * Specification vocabulary *)

(** The float stored under [key], as [json.loads] reads it. *)
Definition read_entry (db : gmap string (payload * Z)) (key : string) : option float :=
  match db !! key with
  | Some (JsonNumber f, _) => Some f
  | _ => None
  end.

(** The next command sent to Redis is delivered: there is a client and the
    server does not fail on it. *)
Definition store_up (w : world) : bool :=
  redis_client w && negb (redis_fault w (redis_sent w)).

(** The store is unreachable: no client (degraded mode since start-up), or
    the server fails on the next command. *)
Definition unreachable (w : world) : Prop :=
  redis_client w = false \/ redis_fault w (redis_sent w) = true.

(** What a lookup of [key] returns in [w]. *)
Definition cache_read (key : string) (w : world) : option float :=
  if store_up w then read_entry (redis_db w) key else None.

(** The cache holds no rate under [key]: it has no client, or the key is
    absent or does not decode to a number.  Every lookup of [key] then
    misses, whatever the server does. *)
Definition holds_no_rate (key : string) (w : world) : Prop :=
  redis_client w = false \/ read_entry (redis_db w) key = None.

(** The world after a method of RedisCache was called: the call is logged,
    one command was sent if there is a client, and the database is [db]. *)
Definition cache_called (e : event) (db : gmap string (payload * Z)) (w : world) : world :=
  {| redis_client := redis_client w; redis_db := db;
     redis_fault := redis_fault w;
     redis_sent := if redis_client w then S (redis_sent w) else redis_sent w;
     provider := provider w; http_sent := http_sent w;
     trace := trace w ++ [e]; clock := clock w |}.

(** The world after one request to the provider. *)
Definition http_called (p : api_params) (w : world) : world :=
  {| redis_client := redis_client w; redis_db := redis_db w;
     redis_fault := redis_fault w; redis_sent := redis_sent w;
     provider := provider w; http_sent := S (http_sent w);
     trace := trace w ++ [HttpGet p]; clock := clock w |}.

(** The currencies [get_rate] asks the provider for. *)
Definition pair_targets (from_c to_c : Currency) : list Currency :=
  if decide (from_c = EUR) then [to_c]
  else if decide (to_c = EUR) then [from_c]
  else [from_c; to_c].

(** The request [get_rate] sends for a pair of different currencies. *)
Definition pair_params (self : ExchangeRateClient.t) (from_c to_c : Currency) : api_params :=
  ExchangeRateClient.build_params self EUR (Some (pair_targets from_c to_c)).

(** The answer is a body that [get_exchange_rates] accepts. *)
Definition accepted (data : api_body) : bool :=
  negb (negb (success data) && bool_decide (is_Some (error_info data))).

(** The events of the cache in a trace. *)
Definition is_cache_event (e : event) : bool :=
  match e with
  | HttpGet _ => false
  | _ => true
  end.

(** The successful results among the outcomes of a batch, in order. *)
Definition successes {A} (outs : list (result A)) : list A :=
  omap (fun o => match o with Ok a => Some a | Raise _ => None end) outs.

(** The outcome of every request of a batch, each run in the world the
    previous ones left. *)
Fixpoint batch_outcomes (self : CurrencyConversionService.t)
    (requests : list ConversionRequest) (w : world) : list (result ConversionResponse) :=
  match requests with
  | [] => []
  | r :: rest =>
      fst (convert self r w) :: batch_outcomes self rest (snd (convert self r w))
  end.

(** The rate of one target that [get_multiple_rates] derives from the
    rates of a snapshot, if it can. *)
Definition derived_rate (rs : gmap string float) (from_c to_c : Currency) : option float :=
  if decide (from_c = to_c) then Some 1%float
  else if decide (from_c = EUR) then
    match rs !! value to_c with
    | Some r => if Py.truthy r then Some r else None
    | None => None
    end
  else if decide (to_c = EUR) then
    match rs !! value from_c with
    | Some x => if Py.truthy x then Some (1 / x)%float else None
    | None => None
    end
  else
    match rs !! value from_c, rs !! value to_c with
    | Some x, Some y => if Py.truthy x && Py.truthy y then Some (y / x)%float else None
    | _, _ => None
    end.

(** Every rate of the mapping is strictly positive. *)
Definition positive_rates (rs : gmap string float) : Prop :=
  forall k r, rs !! k = Some r -> (0 <? r)%float = true.

(** [x] is within [tol] of [y]. *)
Definition within (tol x y : float) : bool := (abs (x - y) <=? tol)%float.

(** The fallback rate of a pair of different currencies. *)
Definition fallback_of (from_c to_c : Currency) : option float :=
  dict_get fallback_rates (value from_c, value to_c).

(** The snapshot or the exception that [get_exchange_rates] makes of an
    answer of the provider read at time [now]. *)
Definition snapshot_of (self : ExchangeRateClient.t) (base_currency : Currency)
    (now : Z) (answer : http_outcome) : result ExchangeRateData :=
  match answer with
  | Unreachable => Raise RequestError
  | BadStatus code => Raise (HTTPStatusError code)
  | Body data =>
      if accepted data then
        Ok {| rates := body_rates data;
              base := if ExchangeRateClient.nonempty (ExchangeRateClient.api_key self)
                      then EUR else base_currency;
              e_timestamp := now |}
      else Raise (ValueError (ApiError (default "Unknown error"%string (error_info data))))
  end.

(** The rate of a pair of different currencies that [get_rate] reads in
    the rates of a snapshot, if it can. *)
Definition pair_rate (rs : gmap string float) (from_c to_c : Currency) : option float :=
  if decide (from_c = EUR) then rs !! value to_c
  else if decide (to_c = EUR) then
    match rs !! value from_c with
    | Some x => if Py.truthy x then Some (1 / x)%float else None
    | None => None
    end
  else
    match rs !! value from_c, rs !! value to_c with
    | Some x, Some y => if Py.truthy x && Py.truthy y then Some (y / x)%float else None
    | _, _ => None
    end.

(** What [get_rate] returns for a pair of different currencies, given the
    provider's answer. *)
Definition rate_of_answer (self : ExchangeRateClient.t) (from_c to_c : Currency)
    (now : Z) (answer : http_outcome) : result float :=
  match snapshot_of self EUR now answer with
  | Raise e => Raise e
  | Ok d =>
      match pair_rate (rates d) from_c to_c with
      | Some r => Ok r
      | None => Raise (ValueError (RateNotFound from_c to_c (dom (rates d))))
      end
  end.

(** The world a batch leaves. *)
Fixpoint batch_world (self : CurrencyConversionService.t)
    (requests : list ConversionRequest) (w : world) : world :=
  match requests with
  | [] => w
  | r :: rest => batch_world self rest (snd (convert self r w))
  end.

(** * Worlds and requests of the examples *)

(** The provider's answer of the scenario: rates relative to EUR. *)
Definition scenario_body : api_body :=
  {| success := true; error_info := None;
     body_rates := {[ "USD"%string := 1.0869%float; "UZS"%string := 13870.5%float ]} |}.

Definition scenario_client : ExchangeRateClient.t :=
  {| ExchangeRateClient.api_url := "https://api.exchangeratesapi.io/v1/latest";
     ExchangeRateClient.api_key := "key";
     ExchangeRateClient.timeout := 10 |}.

Definition scenario_service : CurrencyConversionService.t :=
  init scenario_client None 1800.

(** A connected, empty cache and a provider that answers [scenario_body]. *)
Definition fresh_world : world :=
  {| redis_client := true; redis_db := ∅; redis_fault := fun _ => false;
     redis_sent := 0; provider := fun _ _ => Body scenario_body; http_sent := 0;
     trace := []; clock := 0 |}.

(** A connected, empty cache and a provider that cannot be reached. *)
Definition provider_down_world : world :=
  {| redis_client := true; redis_db := ∅; redis_fault := fun _ => false;
     redis_sent := 0; provider := fun _ _ => Unreachable; http_sent := 0;
     trace := []; clock := 0 |}.

(** A world without a Redis client, as [init_redis] leaves it when the
    connection fails. *)
Definition disconnected_world : world :=
  {| redis_client := false; redis_db := ∅; redis_fault := fun _ => false;
     redis_sent := 0; provider := fun _ _ => Unreachable; http_sent := 0;
     trace := []; clock := 0 |}.

(** A connected world whose server fails on every command. *)
Definition failing_store_world : world :=
  {| redis_client := true;
     redis_db := {[ "exchange_rate:USD:EUR"%string := (JsonNumber 0.92, 1800) ]};
     redis_fault := fun _ => true;
     redis_sent := 0; provider := fun _ _ => Unreachable; http_sent := 0;
     trace := []; clock := 0 |}.

(** An answer where the rate of GBP is zero. *)
Definition zero_rate_body : api_body :=
  {| success := true; error_info := None;
     body_rates := {[ "USD"%string := 2%float; "GBP"%string := 0%float ]} |}.

Definition zero_rate_world : world :=
  {| redis_client := false; redis_db := ∅; redis_fault := fun _ => false;
     redis_sent := 0; provider := fun _ _ => Body zero_rate_body; http_sent := 0;
     trace := []; clock := 0 |}.

(** An answer with a negative rate. *)
Definition negative_rate_body : api_body :=
  {| success := true; error_info := None;
     body_rates := {[ "USD"%string := (-1.0869)%float ]} |}.

Definition negative_rate_world : world :=
  {| redis_client := false; redis_db := ∅; redis_fault := fun _ => false;
     redis_sent := 0; provider := fun _ _ => Body negative_rate_body; http_sent := 0;
     trace := []; clock := 0 |}.

Definition usd_uzs_100 : ConversionRequest :=
  {| amount := 100; from_currency := USD; to_currency := UZS |}.

Definition usd_eur_100 : ConversionRequest :=
  {| amount := 100; from_currency := USD; to_currency := EUR |}.

(** A connected cache that holds 0.92 for USD to EUR, a server that fails
    on the first command only, and a provider that cannot be reached. *)
Definition failed_read_world : world :=
  {| redis_client := true;
     redis_db := {[ "exchange_rate:USD:EUR"%string := (JsonNumber 0.92, 1800) ]};
     redis_fault := fun n => match n with O => true | S _ => false end;
     redis_sent := 0; provider := fun _ _ => Unreachable; http_sent := 0;
     trace := []; clock := 0 |}.

(** A connected cache that holds a rate for USD to EUR, and a provider that
    cannot be reached. *)
Definition cached_rate_world : world :=
  {| redis_client := true;
     redis_db := {[ "exchange_rate:USD:EUR"%string := (JsonNumber 0.95, 1800) ]};
     redis_fault := fun _ => false;
     redis_sent := 0; provider := fun _ _ => Unreachable; http_sent := 0;
     trace := []; clock := 0 |}.

(** No Redis client, and a provider that answers [scenario_body]. *)
Definition no_cache_world : world :=
  {| redis_client := false; redis_db := ∅; redis_fault := fun _ => false;
     redis_sent := 0; provider := fun _ _ => Body scenario_body; http_sent := 0;
     trace := []; clock := 0 |}.

Definition gbp_jpy_100 : ConversionRequest :=
  {| amount := 100; from_currency := GBP; to_currency := JPY |}.

Definition batch_of_three : list ConversionRequest :=
  [ usd_uzs_100;
    {| amount := 0; from_currency := USD; to_currency := UZS |};
    {| amount := 50; from_currency := EUR; to_currency := EUR |} ].

(** * Running the cache *)

Lemma get_run key w :
  RedisCache.get key w
  = (Ok (cache_read key w), cache_called (CacheGet key) (redis_db w) w).
Proof.
  destruct w as [cl db fl n pr h tr ck].
  unfold RedisCache.get, RedisCache.GET, RedisCache.send, RedisCache.client_is_none,
    cache_read, store_up, read_entry, cache_called, bind, try_except, log, ret.
  cbn. destruct cl; cbn; [|reflexivity].
  destruct (fl n); cbn; [reflexivity|].
  destruct (db !! key) as [[[f| |] z]|]; reflexivity.
Qed.

Ltac run_cache :=
  unfold RedisCache.set, RedisCache.delete, RedisCache.clear, RedisCache.exists_,
    RedisCache.SETEX, RedisCache.DEL, RedisCache.FLUSHDB, RedisCache.EXISTS,
    RedisCache.send, RedisCache.client_is_none,
    store_up, cache_called, bind, try_except, log, ret, raise, json_dumps;
  cbn.

Lemma set_run key v ttl_s w :
  RedisCache.set key v ttl_s w
  = (Ok tt,
     cache_called (CacheSet key v ttl_s)
       (if store_up w && (0 <? ttl_s)
        then <[key := (JsonNumber v, ttl_s)]> (redis_db w) else redis_db w) w).
Proof.
  destruct w as [cl db fl n pr h tr ck]. run_cache.
  destruct cl; cbn; [|reflexivity].
  destruct (0 <? ttl_s); unfold RedisCache.send, bind, raise; cbn;
    destruct (fl n); reflexivity.
Qed.

Lemma delete_run key w :
  RedisCache.delete key w
  = (Ok tt,
     cache_called (CacheDelete key)
       (if store_up w then delete key (redis_db w) else redis_db w) w).
Proof.
  destruct w as [cl db fl n pr h tr ck]. run_cache.
  destruct cl; cbn; [|reflexivity]. destruct (fl n); reflexivity.
Qed.

Lemma clear_run w :
  RedisCache.clear w
  = (Ok tt, cache_called CacheClear (if store_up w then ∅ else redis_db w) w).
Proof.
  destruct w as [cl db fl n pr h tr ck]. run_cache.
  destruct cl; cbn; [|reflexivity]. destruct (fl n); reflexivity.
Qed.

Lemma exists_run key w :
  RedisCache.exists_ key w
  = (Ok (store_up w && bool_decide (is_Some (redis_db w !! key))),
     cache_called (CacheExists key) (redis_db w) w).
Proof.
  destruct w as [cl db fl n pr h tr ck]. run_cache.
  destruct cl; cbn; [|reflexivity]. destruct (fl n); reflexivity.
Qed.

Lemma unreachable_store_down w : unreachable w -> store_up w = false.
Proof.
  unfold store_up. intros [H|H]; rewrite H; [reflexivity|].
  apply andb_false_r.
Qed.

Lemma holds_no_rate_read key w : holds_no_rate key w -> cache_read key w = None.
Proof.
  unfold cache_read, store_up. intros [H|H]; rewrite H; [reflexivity|].
  destruct (_ && _); reflexivity.
Qed.

(** * Running the service's cache helpers *)

Lemma get_cached_rate_run key w :
  _get_cached_rate key w
  = (Ok (cache_read key w), cache_called (CacheGet key) (redis_db w) w).
Proof.
  unfold _get_cached_rate, try_except, bind. rewrite get_run.
  destruct (cache_read key w); reflexivity.
Qed.

Lemma cache_rate_run self key r w :
  _cache_rate self key r w
  = (Ok tt,
     cache_called (CacheSet key r (ttl self))
       (if store_up w && (0 <? ttl self)
        then <[key := (JsonNumber r, ttl self)]> (redis_db w)
        else redis_db w) w).
Proof. unfold _cache_rate, try_except. rewrite set_run. reflexivity. Qed.

Lemma was_cached_run key r w :
  _was_cached key r w
  = (Ok (Py.opt_eq (cache_read key w) r),
     cache_called (CacheGet key) (redis_db w) w).
Proof. unfold _was_cached, bind. rewrite get_cached_rate_run. reflexivity. Qed.

(** * Running the client *)

Lemma get_exchange_rates_run self base_c targets w :
  let p := ExchangeRateClient.build_params self base_c targets in
  ExchangeRateClient.get_exchange_rates self base_c targets w
  = (snapshot_of self base_c (clock w) (provider w (http_sent w) p), http_called p w).
Proof.
  destruct w as [cl db fl n pr h tr ck].
  unfold ExchangeRateClient.get_exchange_rates, ExchangeRateClient.http_get,
    snapshot_of, accepted, http_called, bind, raise, ret, datetime_now. cbn.
  destruct (pr h _) as [|code|data]; try reflexivity.
  destruct (negb (success data) && _); reflexivity.
Qed.

Lemma get_rate_same self c w : ExchangeRateClient.get_rate self c c w = (Ok 1%float, w).
Proof.
  unfold ExchangeRateClient.get_rate. destruct (decide (c = c)); [reflexivity|congruence].
Qed.

Lemma get_rate_run self from_c to_c w :
  from_c <> to_c ->
  ExchangeRateClient.get_rate self from_c to_c w
  = (rate_of_answer self from_c to_c (clock w)
       (provider w (http_sent w) (pair_params self from_c to_c)),
     http_called (pair_params self from_c to_c) w).
Proof.
  intros Hne. unfold ExchangeRateClient.get_rate, rate_of_answer, pair_rate,
    pair_params, pair_targets, try_except, bind.
  destruct (decide (from_c = to_c)) as [|_]; [congruence|].
  destruct (decide (from_c = EUR)); [|destruct (decide (to_c = EUR))];
    rewrite get_exchange_rates_run;
    match goal with |- context [snapshot_of ?a ?b ?c ?d] =>
      destruct (snapshot_of a b c d) as [d0|e0] end;
    try reflexivity; cbn;
    unfold ExchangeRateClient.found_or_raise, raise, ret.
  - destruct (rates d0 !! value to_c); reflexivity.
  - destruct (rates d0 !! value from_c) as [x|]; [destruct (Py.truthy x)|]; reflexivity.
  - destruct (rates d0 !! value from_c) as [x|]; [|reflexivity].
    destruct (rates d0 !! value to_c) as [y|]; [|reflexivity].
    destruct (Py.truthy x && Py.truthy y); reflexivity.
Qed.

(** * Running the rate resolution *)

Lemma get_fallback_rate_run from_c to_c w :
  from_c <> to_c ->
  _get_fallback_rate from_c to_c w = (Ok (fallback_of from_c to_c), w).
Proof.
  intros Hne. unfold _get_fallback_rate.
  destruct (decide (from_c = to_c)); [congruence|reflexivity].
Qed.

Lemma get_rate_hit self key from_c to_c w r :
  cache_read key w = Some r ->
  _get_rate self key from_c to_c w
  = (Ok r, cache_called (CacheGet key) (redis_db w) w).
Proof.
  intros H. unfold _get_rate, bind. rewrite get_cached_rate_run, H. reflexivity.
Qed.

Lemma get_rate_miss self key from_c to_c w :
  from_c <> to_c ->
  cache_read key w = None ->
  let p := pair_params (client self) from_c to_c in
  let w1 := cache_called (CacheGet key) (redis_db w) w in
  let w2 := http_called p w1 in
  _get_rate self key from_c to_c w
  = match rate_of_answer (client self) from_c to_c (clock w) (provider w (http_sent w) p) with
    | Ok r =>
        (Ok r,
         cache_called (CacheSet key r (ttl self))
           (if store_up w2 && (0 <? ttl self)
            then <[key := (JsonNumber r, ttl self)]> (redis_db w)
            else redis_db w) w2)
    | Raise _ =>
        (match fallback_of from_c to_c with
         | Some r => Ok r
         | None => Raise (ValueError (CouldNotGetRate from_c to_c))
         end, w2)
    end.
Proof.
  intros Hne H p w1 w2. unfold _get_rate, bind at 1.
  rewrite get_cached_rate_run, H. unfold try_except, bind.
  rewrite get_rate_run by exact Hne. fold w1. cbn [provider http_sent clock cache_called].
  fold p. fold w2.
  destruct (rate_of_answer _ _ _ _ _) as [r|e].
  - rewrite cache_rate_run. reflexivity.
  - rewrite get_fallback_rate_run by exact Hne.
    destruct (fallback_of from_c to_c); reflexivity.
Qed.

(** * Floats *)

Lemma positive_not_le0 (a : float) : (0 <? a)%float = true -> (a <=? 0)%float = false.
Proof.
  rewrite FloatAxioms.ltb_spec, FloatAxioms.leb_spec. unfold SFltb, SFleb.
  change (Prim2SF 0) with (S754_zero false).
  destruct (Prim2SF a) as [s|s| |s m e]; cbn; try destruct s; cbn; congruence.
Qed.

Lemma positive_truthy (a : float) : (0 <? a)%float = true -> Py.truthy a = true.
Proof.
  unfold Py.truthy. rewrite FloatAxioms.ltb_spec, FloatAxioms.eqb_spec. unfold SFltb, SFeqb.
  change (Prim2SF 0) with (S754_zero false).
  destruct (Prim2SF a) as [s|s| |s m e]; cbn; try destruct s; cbn; congruence.
Qed.

(** [round2] on values where Python's [round(x, 2)] is known: 2.675 is
    below the tie, 0.125 and 0.375 are ties, a small negative rounds to
    minus zero, large values are unchanged. *)
Lemma round2_examples :
  Py.round2 2.675 = 2.67%float
  /\ Py.round2 0.125 = 0.12%float
  /\ Py.round2 0.375 = 0.38%float
  /\ Py.round2 (-0.001) = neg_zero
  /\ Py.round2 1e300 = 1e300%float
  /\ Py.round2 90071992547409.93 = 90071992547409.94%float
  /\ Py.round2 infinity = infinity.
Proof. repeat split; reflexivity. Qed.

(** * The cache in degraded mode *)

(** C6: called while the store is unreachable (no client, or the server
    fails on the command), [get] returns absent, [set], [delete] and [clear]
    return normally and leave the database as it was, and [exists] returns
    false; and [get] on bytes that are not JSON returns absent too.  No case
    raises. *)
Theorem cache_degraded_mode key v ttl_s w :
  unreachable w \/ (exists t, redis_db w !! key = Some (NotJson, t)) ->
  fst (RedisCache.get key w) = Ok None
  /\ (unreachable w ->
      (fst (RedisCache.set key v ttl_s w) = Ok tt
       /\ redis_db (snd (RedisCache.set key v ttl_s w)) = redis_db w)
      /\ (fst (RedisCache.delete key w) = Ok tt
          /\ redis_db (snd (RedisCache.delete key w)) = redis_db w)
      /\ (fst (RedisCache.clear w) = Ok tt
          /\ redis_db (snd (RedisCache.clear w)) = redis_db w)
      /\ fst (RedisCache.exists_ key w) = Ok false).
Proof.
  intros H. split.
  - rewrite get_run. cbn [fst]. f_equal. unfold cache_read.
    destruct H as [H|[t H]].
    + rewrite (unreachable_store_down _ H). reflexivity.
    + unfold read_entry. rewrite H. destruct (store_up w); reflexivity.
  - intros Hu. pose proof (unreachable_store_down _ Hu) as Hd.
    rewrite set_run, delete_run, clear_run, exists_run, Hd. cbn. auto.
Qed.

Lemma cache_degraded_mode_witness :
  fst (RedisCache.get "exchange_rate:USD:EUR" disconnected_world) = Ok None
  /\ fst (RedisCache.exists_ "exchange_rate:USD:EUR" disconnected_world) = Ok false.
Proof.
  assert (Hu : unreachable disconnected_world) by (left; reflexivity).
  destruct (cache_degraded_mode "exchange_rate:USD:EUR" 1%float 1800
              disconnected_world (or_introl Hu)) as [Hget Hrest].
  split; [exact Hget|]. apply (Hrest Hu).
Defined.

(** [get] never raises, in any world. *)
Lemma cache_get_never_raises key w : is_ok (fst (RedisCache.get key w)) = true.
Proof. rewrite get_run. reflexivity. Qed.

(** * clear_cache *)

(** C3, as the code has it: [clear_cache] is the cache's [clear], and in
    every run it returns normally; the database is emptied when the flush
    is delivered and left as it was when the flush fails, which
    [RedisCache.clear] absorbs. *)
Theorem clear_cache_returns_normally w :
  clear_cache w = RedisCache.clear w
  /\ fst (clear_cache w) = Ok tt
  /\ redis_db (snd (clear_cache w)) = (if store_up w then ∅ else redis_db w)
  /\ trace (snd (clear_cache w)) = trace w ++ [CacheClear].
Proof.
  unfold clear_cache, try_except. rewrite clear_run. cbn. auto.
Qed.

(** C3 fails as stated: the flush raises, and the caller of [clear_cache]
    sees a normal return while the entry is still there. *)
Lemma clear_cache_hides_flush_failure :
  fst (RedisCache.FLUSHDB failing_store_world) = Raise RedisError
  /\ fst (clear_cache failing_store_world) = Ok tt
  /\ redis_db (snd (clear_cache failing_store_world)) !! "exchange_rate:USD:EUR"
     = Some (JsonNumber 0.92, 1800).
Proof.
  split; [reflexivity|]. unfold clear_cache, try_except. rewrite clear_run.
  split; [reflexivity|]. cbn. apply lookup_singleton_eq.
Qed.

(** * get_rate_direct *)

Lemma filter_cache_http_called p w :
  List.filter is_cache_event (trace (http_called p w))
  = List.filter is_cache_event (trace w).
Proof. cbn. rewrite List.filter_app. cbn. apply app_nil_r. Qed.

(** C10: for two different currencies, [get_rate_direct] with
    [use_cache = false] is the client's [get_rate] and nothing else.  It
    sends exactly one request to the provider and returns what the answer
    gives: the pair's rate of an accepted answer, and otherwise the error of
    the provider or of the missing rate, which reaches the caller as it is,
    whatever the cache holds and whether or not the fallback table has the
    pair.  No call on the cache is made, no command is sent to Redis and the
    database is as it was.  With [use_cache = true] it is [_get_rate]: a hit
    is returned without any request; on a miss the provider's rate is
    returned after [cache.set] was called with it and the TTL; on a miss and
    a failing provider the fallback rate is returned, or the error that no
    rate could be got when the table does not have the pair. *)
Theorem get_rate_direct_bypasses_cache self from_c to_c w :
  from_c <> to_c ->
  let key := _cache_key from_c to_c in
  let p := pair_params (client self) from_c to_c in
  let answer := provider w (http_sent w) p in
  let direct := get_rate_direct self from_c to_c false w in
  let chained := get_rate_direct self from_c to_c true w in
  (direct = ExchangeRateClient.get_rate (client self) from_c to_c w
   /\ trace (snd direct) = trace w ++ [HttpGet p]
   /\ http_sent (snd direct) = S (http_sent w)
   /\ redis_db (snd direct) = redis_db w
   /\ redis_sent (snd direct) = redis_sent w
   /\ (answer = Unreachable -> fst direct = Raise RequestError)
   /\ (forall code, answer = BadStatus code -> fst direct = Raise (HTTPStatusError code))
   /\ (forall data,
         answer = Body data ->
         fst direct
         = if accepted data then
             match pair_rate (body_rates data) from_c to_c with
             | Some r => Ok r
             | None =>
                 Raise (ValueError (RateNotFound from_c to_c (dom (body_rates data))))
             end
           else
             Raise (ValueError
                      (ApiError (default "Unknown error"%string (error_info data))))))
  /\ (chained = _get_rate self key from_c to_c w
      /\ (forall r,
            cache_read key w = Some r ->
            fst chained = Ok r
            /\ trace (snd chained) = trace w ++ [CacheGet key]
            /\ http_sent (snd chained) = http_sent w)
      /\ (cache_read key w = None ->
          (forall r,
             fst direct = Ok r ->
             fst chained = Ok r
             /\ trace (snd chained)
                = trace w ++ [CacheGet key; HttpGet p; CacheSet key r (ttl self)])
          /\ (forall e,
                fst direct = Raise e ->
                fst chained
                = match fallback_of from_c to_c with
                  | Some r => Ok r
                  | None => Raise (ValueError (CouldNotGetRate from_c to_c))
                  end
                /\ trace (snd chained) = trace w ++ [CacheGet key; HttpGet p]))).
Proof.
  intros Hne key p answer direct chained. subst direct chained.
  unfold get_rate_direct. cbn [negb]. fold key.
  rewrite get_rate_run by exact Hne. fold p. fold answer. cbn [fst snd].
  split.
  - split; [reflexivity|]. split; [reflexivity|]. split; [reflexivity|].
    split; [reflexivity|]. split; [reflexivity|].
    unfold rate_of_answer, snapshot_of.
    split; [intros ->; reflexivity|]. split; [intros code ->; reflexivity|].
    intros data ->. destruct (accepted data); reflexivity.
  - split; [reflexivity|]. split.
    + intros r Hhit. rewrite (get_rate_hit _ _ _ _ _ r Hhit). cbn. auto.
    + intros Hmiss. rewrite get_rate_miss by assumption. fold p. fold answer.
      split.
      * intros r ->. cbn. split; [reflexivity|]. rewrite <- !app_assoc. reflexivity.
      * intros e ->. cbn. split; [reflexivity|]. rewrite <- !app_assoc. reflexivity.
Qed.

(** * convert and convert_batch *)

Lemma convert_invalid self request w :
  (amount request <=? 0)%float = true ->
  convert self request w = (Raise (ValueError AmountNotPositive), w).
Proof. intros H. unfold convert, try_except. rewrite H. reflexivity. Qed.

Lemma convert_same_currency self request w :
  (amount request <=? 0)%float = false ->
  from_currency request = to_currency request ->
  convert self request w
  = (Ok {| r_amount := amount request;
           r_from_currency := from_currency request;
           r_to_currency := to_currency request;
           converted_amount := amount request;
           rate := 1%float;
           timestamp := clock w;
           cached := false |}, w).
Proof.
  intros H Heq. unfold convert, try_except. rewrite H.
  destruct (decide _); [reflexivity|contradiction].
Qed.

Lemma gather_run self requests : forall w,
  gather (map (convert self) requests) w
  = (Ok (batch_outcomes self requests w), batch_world self requests w).
Proof.
  induction requests as [|r rest IH]; intros w; [reflexivity|].
  cbn [map gather batch_outcomes batch_world].
  destruct (convert self r w) as [o w1]. rewrite IH. reflexivity.
Qed.

Lemma split_results_successful {A} (results : list (result A)) : forall i successful errors,
  fst (split_results results i successful errors) = successful ++ successes results.
Proof.
  induction results as [|[a|e] rest IH]; intros i successful errors; cbn.
  - symmetry. apply app_nil_r.
  - rewrite IH, <- app_assoc. reflexivity.
  - apply IH.
Qed.

Lemma convert_batch_run self requests w :
  convert_batch self requests w
  = (match successes (batch_outcomes self requests w) with
     | [] => Raise (ValueError AllBatchFailed)
     | r :: l => Ok (r :: l)
     end, batch_world self requests w).
Proof.
  unfold convert_batch, try_except, bind. rewrite gather_run.
  pose proof (split_results_successful (batch_outcomes self requests w) 0 [] []) as H.
  destruct (split_results _ 0 [] []) as [successful errors]. cbn in H. subst successful.
  destruct (successes _); reflexivity.
Qed.

Lemma successes_nil {A} (outs : list (result A)) :
  successes outs = [] <-> Forall (fun o => is_ok o = false) outs.
Proof.
  induction outs as [|[a|e] rest IH]; cbn.
  - split; [constructor|reflexivity].
  - split; [discriminate|]. intros H. inversion H. discriminate.
  - rewrite IH. split; [intros H; constructor; [reflexivity|exact H]|].
    intros H. inversion H. assumption.
Qed.

Lemma elem_of_successes {A} (outs : list (result A)) (x : A) :
  x ∈ successes outs <-> Ok x ∈ outs.
Proof.
  unfold successes. rewrite list_elem_of_omap. split.
  - intros ([a|e] & Hin & Heq); inversion Heq. subst. exact Hin.
  - intros Hin. exists (Ok x). auto.
Qed.

Lemma successes_length {A} (outs : list (result A)) :
  (length (successes outs)
   + length (List.filter (fun o => negb (is_ok o)) outs) = length outs)%nat.
Proof.
  induction outs as [|[a|e] rest IH]; cbn; [reflexivity| |];
    fold (successes rest); lia.
Qed.

Lemma batch_outcomes_length self requests : forall w,
  length (batch_outcomes self requests w) = length requests.
Proof.
  induction requests as [|r rest IH]; intros w; cbn; [reflexivity|].
  rewrite IH. reflexivity.
Qed.

Lemma batch_outcomes_invalid self requests : forall w,
  Forall (fun r => (amount r <=? 0)%float = true) requests ->
  Forall (fun o => is_ok o = false) (batch_outcomes self requests w).
Proof.
  induction requests as [|r rest IH]; intros w H; cbn; [constructor|].
  inversion H as [|? ? Hr Hrest]; subst.
  rewrite (convert_invalid self r w Hr). cbn. constructor; [reflexivity|].
  apply IH. exact Hrest.
Qed.

(** C7: [convert_batch] returns the results of the requests that succeed,
    in order, and nothing of those that fail; it fails, with "All batch
    conversions failed", exactly when every request fails.  Of three
    requests of which one fails it returns two results, and a batch of
    requests whose amounts are all non-positive fails. *)
Theorem convert_batch_keeps_successes self requests w :
  let outs := batch_outcomes self requests w in
  let res := fst (convert_batch self requests w) in
  (res = Raise (ValueError AllBatchFailed) <-> Forall (fun o => is_ok o = false) outs)
  /\ (Exists (fun o => is_ok o = true) outs -> res = Ok (successes outs))
  /\ (forall x, x ∈ successes outs <-> Ok x ∈ outs)
  /\ (length (successes outs)
      + length (List.filter (fun o => negb (is_ok o)) outs) = length requests)%nat
  /\ (length requests = 3%nat ->
      length (List.filter (fun o => negb (is_ok o)) outs) = 1%nat ->
      exists l, res = Ok l /\ length l = 2%nat)
  /\ (Forall (fun r => (amount r <=? 0)%float = true) requests ->
      res = Raise (ValueError AllBatchFailed)).
Proof.
  intros outs res.
  assert (Hres : res = match successes outs with
                       | [] => Raise (ValueError AllBatchFailed)
                       | r :: l => Ok (r :: l)
                       end).
  { subst res outs. rewrite convert_batch_run. reflexivity. }
  assert (Hlen : (length (successes outs)
      + length (List.filter (fun o => negb (is_ok o)) outs) = length requests)%nat).
  { rewrite successes_length. apply batch_outcomes_length. }
  assert (Hall : res = Raise (ValueError AllBatchFailed)
                 <-> Forall (fun o => is_ok o = false) outs).
  { rewrite <- successes_nil, Hres. destruct (successes outs); split; congruence. }
  split; [exact Hall|]. split; [|split; [apply elem_of_successes|split; [exact Hlen|split]]].
  - intros Hex. rewrite Hres. destruct (successes outs) eqn:Hs; [|reflexivity].
    apply successes_nil in Hs. apply Exists_exists in Hex as (o & Hin & Hok).
    rewrite Forall_forall in Hs. specialize (Hs o Hin). congruence.
  - intros H3 H1. rewrite Hres. rewrite H3, H1 in Hlen.
    destruct (successes outs) as [|r l]; cbn in Hlen; [lia|].
    exists (r :: l). split; [reflexivity|]. cbn. lia.
  - intros Hinv. apply Hall. apply batch_outcomes_invalid. exact Hinv.
Qed.

Lemma convert_resolve self request w :
  (amount request <=? 0)%float = false ->
  from_currency request <> to_currency request ->
  let key := _cache_key (from_currency request) (to_currency request) in
  convert self request w
  = match _get_rate self key (from_currency request) (to_currency request) w with
    | (Ok r, w1) =>
        (Ok {| r_amount := amount request;
               r_from_currency := from_currency request;
               r_to_currency := to_currency request;
               converted_amount := Py.round2 (amount request * r);
               rate := r;
               timestamp := clock w1;
               cached := Py.opt_eq (cache_read key w1) r |},
         cache_called (CacheGet key) (redis_db w1) w1)
    | (Raise e, w1) => (Raise e, w1)
    end.
Proof.
  intros Ha Hne key. unfold convert, try_except. rewrite Ha.
  destruct (decide _) as [|_]; [contradiction|].
  fold key. unfold bind at 1.
  destruct (_get_rate self key _ _ w) as [[r|e] w1]; [|reflexivity].
  unfold bind, datetime_now. rewrite was_cached_run. reflexivity.
Qed.

(** * The fallback *)

(** C2, as the code has it: a request with a positive amount between two
    different currencies, run when the lookup of the pair's key misses, the
    provider call fails and the fallback table has the ordered pair,
    succeeds with the fallback rate; the cache is only read (twice), never
    written, and its database is left as it was.  The flag [cached] is
    what the second read of the key tells.  When moreover the cache holds no
    rate under the key (the miss is not just a read that failed), the
    response says [cached = False] and the same request run next misses
    again and sends a request to the provider. *)
Theorem convert_falls_back self request w e r :
  (0 <? amount request)%float = true ->
  from_currency request <> to_currency request ->
  cache_read (_cache_key (from_currency request) (to_currency request)) w = None ->
  fst (ExchangeRateClient.get_rate (client self)
         (from_currency request) (to_currency request) w) = Raise e ->
  fallback_of (from_currency request) (to_currency request) = Some r ->
  let key := _cache_key (from_currency request) (to_currency request) in
  let p := pair_params (client self) (from_currency request) (to_currency request) in
  let run := convert self request w in
  let again := convert self request (snd run) in
  let second_read :=
    cache_read key (http_called p (cache_called (CacheGet key) (redis_db w) w)) in
  fst run
  = Ok {| r_amount := amount request;
          r_from_currency := from_currency request;
          r_to_currency := to_currency request;
          converted_amount := Py.round2 (amount request * r);
          rate := r;
          timestamp := clock w;
          cached := Py.opt_eq second_read r |}
  /\ (holds_no_rate key w -> Py.opt_eq second_read r = false)
  /\ redis_db (snd run) = redis_db w
  /\ trace (snd run) = trace w ++ [CacheGet key; HttpGet p; CacheGet key]
  /\ (holds_no_rate key w ->
      http_sent (snd again) = S (http_sent (snd run))
      /\ exists rest,
           trace (snd again) = trace (snd run) ++ CacheGet key :: HttpGet p :: rest).
Proof.
  intros Hpos Hne Hmiss Hfail Hfb key p run again second_read.
  pose proof (positive_not_le0 _ Hpos) as Ha.
  rewrite get_rate_run in Hfail by exact Hne. cbn [fst] in Hfail.
  subst second_read.
  set (w2 := http_called p (cache_called (CacheGet key) (redis_db w) w)).
  assert (Hrun : run
    = (Ok {| r_amount := amount request;
             r_from_currency := from_currency request;
             r_to_currency := to_currency request;
             converted_amount := Py.round2 (amount request * r);
             rate := r;
             timestamp := clock w;
             cached := Py.opt_eq (cache_read key w2) r |},
       cache_called (CacheGet key) (redis_db w) w2)).
  { subst run. rewrite convert_resolve by assumption. fold key.
    rewrite get_rate_miss by assumption.
    rewrite Hfail, Hfb. reflexivity. }
  subst again. rewrite Hrun. cbn [fst snd].
  split; [reflexivity|].
  split; [|split; [reflexivity|split; [cbn; rewrite <- !app_assoc; reflexivity|]]].
  - intros Hno.
    assert (Hread : cache_read key w2 = None) by (apply holds_no_rate_read; exact Hno).
    rewrite Hread. reflexivity.
  - intros Hno. set (w3 := cache_called _ _ _).
    assert (Hno3 : holds_no_rate key w3) by exact Hno.
    rewrite convert_resolve by assumption. fold key.
    rewrite get_rate_miss by (try assumption; apply holds_no_rate_read; exact Hno3).
    clear Hfail Hrun. destruct (rate_of_answer _ _ _ _ _) as [r'|e'].
    + cbn. split; [reflexivity|]. eexists. rewrite <- !app_assoc. reflexivity.
    + rewrite Hfb. cbn. split; [reflexivity|]. eexists. rewrite <- !app_assoc. reflexivity.
Qed.

(** C2 fails as stated: the key holds 0.92, Redis fails on the first read
    only, the provider cannot be reached and the fallback rate of the pair
    is 0.92.  The lookup misses and [convert] answers with the fallback
    rate, but the response says [cached = True], and the same request run
    next is answered from the cache: no request is sent for it. *)
Lemma fallback_after_failed_read :
  cache_read (_cache_key USD EUR) failed_read_world = None
  /\ fst (ExchangeRateClient.get_rate scenario_client USD EUR failed_read_world)
     = Raise RequestError
  /\ fallback_of USD EUR = Some 0.92%float
  /\ fst (convert scenario_service usd_eur_100 failed_read_world)
     = Ok {| r_amount := 100;
             r_from_currency := USD;
             r_to_currency := EUR;
             converted_amount := Py.round2 (100 * 0.92);
             rate := 0.92;
             timestamp := 0;
             cached := true |}
  /\ http_sent (snd (convert scenario_service usd_eur_100
                       (snd (convert scenario_service usd_eur_100 failed_read_world))))
     = http_sent (snd (convert scenario_service usd_eur_100 failed_read_world)).
Proof. repeat split; vm_compute; reflexivity. Qed.

(** * A fresh fetch *)

(** After a miss and a successful fetch the rate is written under the key
    with the service's TTL (a positive one); when the write and the read
    that [_was_cached] makes afterwards are delivered, that read returns the
    rate just written and the response says [cached = True]. *)
Lemma convert_fresh_fetch self request w r :
  0 < ttl self ->
  (0 <? amount request)%float = true ->
  from_currency request <> to_currency request ->
  let key := _cache_key (from_currency request) (to_currency request) in
  cache_read key w = None ->
  fst (ExchangeRateClient.get_rate (client self)
         (from_currency request) (to_currency request) w) = Ok r ->
  redis_client w = true ->
  redis_fault w (S (redis_sent w)) = false ->
  redis_fault w (S (S (redis_sent w))) = false ->
  (r =? r)%float = true ->
  let run := convert self request w in
  fst run
  = Ok {| r_amount := amount request;
          r_from_currency := from_currency request;
          r_to_currency := to_currency request;
          converted_amount := Py.round2 (amount request * r);
          rate := r;
          timestamp := clock w;
          cached := true |}
  /\ redis_db (snd run) !! key = Some (JsonNumber r, ttl self)
  /\ In (CacheSet key r (ttl self)) (trace (snd run)).
Proof.
  intros Httl Hpos Hne key Hmiss Hok Hcl Hf1 Hf2 Hrr run.
  apply Z.ltb_lt in Httl.
  pose proof (positive_not_le0 _ Hpos) as Ha.
  rewrite get_rate_run in Hok by exact Hne. cbn [fst] in Hok.
  subst run. rewrite convert_resolve by assumption. fold key.
  rewrite get_rate_miss by assumption. rewrite Hok. cbv beta iota zeta.
  unfold cache_read, store_up, read_entry. cbn.
  rewrite Hcl, Hf1, Hf2, Httl. cbn. rewrite lookup_insert_eq. cbn. rewrite Hrr.
  split; [reflexivity|]. split; [reflexivity|].
  rewrite !in_app_iff. cbn. tauto.
Qed.

(** C1, at the scenario: the cache is empty, the provider answers, the rate
    is written under the key with the TTL, and the response says
    [cached = True]. *)
Theorem convert_fresh_fetch_says_cached :
  cache_read (_cache_key USD UZS) fresh_world = None
  /\ fst (ExchangeRateClient.get_rate scenario_client USD UZS fresh_world)
     = Ok 12761.523599227161%float
  /\ fst (convert scenario_service usd_uzs_100 fresh_world)
     = Ok {| r_amount := 100;
             r_from_currency := USD;
             r_to_currency := UZS;
             converted_amount := 1276152.36;
             rate := 12761.523599227161;
             timestamp := 0;
             cached := true |}
  /\ redis_db (snd (convert scenario_service usd_uzs_100 fresh_world))
       !! _cache_key USD UZS
     = Some (JsonNumber 12761.523599227161, 1800).
Proof.
  assert (Hrate : fst (ExchangeRateClient.get_rate scenario_client USD UZS fresh_world)
                  = Ok 12761.523599227161%float) by (vm_compute; reflexivity).
  split; [reflexivity|]. split; [exact Hrate|].
  destruct (convert_fresh_fetch scenario_service usd_uzs_100 fresh_world
              12761.523599227161%float) as (H1 & H2 & _);
    try reflexivity; try exact Hrate; try discriminate.
  split; [exact H1|exact H2].
Qed.

(** * The USD to UZS scenario *)

(** C9, with the values the code computes: 100 USD to UZS, on a miss and
    an answer with USD at 1.0869 and UZS at 13870.5, has the rate
    13870.5 / 1.0869 = 12761.523599227161 and the converted amount
    round(100 * rate, 2) = 1276152.36. *)
Theorem convert_usd_uzs_scenario self w data :
  cache_read (_cache_key USD UZS) w = None ->
  provider w (http_sent w) (pair_params (client self) USD UZS) = Body data ->
  accepted data = true ->
  body_rates data !! "USD"%string = Some 1.0869%float ->
  body_rates data !! "UZS"%string = Some 13870.5%float ->
  (exists c,
     fst (convert self usd_uzs_100 w)
     = Ok {| r_amount := 100;
             r_from_currency := USD;
             r_to_currency := UZS;
             converted_amount := 1276152.36;
             rate := 12761.523599227161;
             timestamp := clock w;
             cached := c |})
  /\ (13870.5 / 1.0869 = 12761.523599227161)%float
  /\ Py.round2 (100 * 12761.523599227161) = 1276152.36%float.
Proof.
  intros Hmiss Hans Hacc Husd Huzs.
  split; [|split; reflexivity].
  rewrite convert_resolve by (try reflexivity; discriminate).
  cbn [usd_uzs_100 from_currency to_currency amount].
  rewrite get_rate_miss by (try assumption; discriminate).
  unfold rate_of_answer, snapshot_of. rewrite Hans, Hacc.
  cbn [rates]. unfold pair_rate.
  destruct (decide (USD = EUR)) as [|_]; [discriminate|].
  destruct (decide (UZS = EUR)) as [|_]; [discriminate|].
  cbn [value]. rewrite Husd, Huzs.
  change (Py.truthy 1.0869 && Py.truthy 13870.5) with true.
  cbv beta iota zeta. eexists. reflexivity.
Qed.

(** C9 fails as stated: in the scenario the rate is more than 1 away from
    12762.9 and the converted amount more than 100 away from 1276290.00. *)
Lemma scenario_values_differ :
  fst (convert scenario_service usd_uzs_100 fresh_world)
  = Ok {| r_amount := 100;
          r_from_currency := USD;
          r_to_currency := UZS;
          converted_amount := 1276152.36;
          rate := 12761.523599227161;
          timestamp := 0;
          cached := true |}
  /\ within 1 12761.523599227161 12762.9 = false
  /\ within 100 1276152.36 1276290.00 = false.
Proof. split; [vm_compute; reflexivity|split; reflexivity]. Qed.

Lemma convert_usd_uzs_scenario_witness :
  exists c,
    fst (convert scenario_service usd_uzs_100 fresh_world)
    = Ok {| r_amount := 100;
            r_from_currency := USD;
            r_to_currency := UZS;
            converted_amount := 1276152.36;
            rate := 12761.523599227161;
            timestamp := 0;
            cached := c |}.
Proof.
  apply (convert_usd_uzs_scenario scenario_service fresh_world scenario_body);
    reflexivity.
Defined.

(** * get_rate *)

(** [get_rate] on any rates: for equal currencies it returns 1.0 and
    leaves the world as it was (no request is sent); otherwise it sends one
    request, for [to] when [from] is EUR, for [from] when [to] is EUR, and
    for both otherwise, and from the rates of an accepted answer it returns
    the entry of [to] (from EUR), the reciprocal of the entry of [from] when
    that entry is not zero (to EUR), the entry of [to] divided by the entry
    of [from] when neither is zero (otherwise); in every other case (a
    needed entry is missing, or is zero where a non-zero one is asked for)
    it raises the error that lists the codes of the answer. *)
Theorem get_rate_cases self from_c to_c w :
  (from_c = to_c -> ExchangeRateClient.get_rate self from_c to_c w = (Ok 1%float, w))
  /\ (from_c <> to_c ->
      let p := {| access_key := access_key (pair_params self from_c to_c);
                  base_param := base_param (pair_params self from_c to_c);
                  symbols := Some (if decide (from_c = EUR) then [to_c]
                                   else if decide (to_c = EUR) then [from_c]
                                   else [from_c; to_c]) |} in
      snd (ExchangeRateClient.get_rate self from_c to_c w) = http_called p w
      /\ forall data,
           provider w (http_sent w) p = Body data ->
           accepted data = true ->
           let rs := body_rates data in
           let res := fst (ExchangeRateClient.get_rate self from_c to_c w) in
           let unavailable := Raise (ValueError (RateNotFound from_c to_c (dom rs))) in
           (from_c = EUR ->
            res = match rs !! value to_c with
                  | Some r => Ok r
                  | None => unavailable
                  end)
           /\ (from_c <> EUR -> to_c = EUR ->
               res = match rs !! value from_c with
                     | Some x => if Py.truthy x then Ok (1 / x)%float else unavailable
                     | None => unavailable
                     end)
           /\ (from_c <> EUR -> to_c <> EUR ->
               res = match rs !! value from_c, rs !! value to_c with
                     | Some x, Some y =>
                         if Py.truthy x && Py.truthy y then Ok (y / x)%float
                         else unavailable
                     | _, _ => unavailable
                     end)).
Proof.
  split; [intros ->; apply get_rate_same|].
  intros Hne p.
  assert (Hp : p = pair_params self from_c to_c).
  { subst p. unfold pair_params, pair_targets, ExchangeRateClient.build_params.
    destruct (decide (from_c = EUR)); [|destruct (decide (to_c = EUR))]; reflexivity. }
  rewrite Hp. clear Hp p.
  rewrite get_rate_run by exact Hne. split; [reflexivity|].
  intros data Hans Hacc rs res unavailable. subst res. cbn [fst].
  unfold rate_of_answer, snapshot_of. rewrite Hans, Hacc. cbn [rates].
  fold rs. fold unavailable. unfold pair_rate.
  split; [|split].
  - intros Heur. destruct (decide (from_c = EUR)); [|contradiction].
    destruct (rs !! value to_c); reflexivity.
  - intros Hf Ht. destruct (decide (from_c = EUR)); [contradiction|].
    destruct (decide (to_c = EUR)); [|contradiction].
    destruct (rs !! value from_c) as [x|]; [destruct (Py.truthy x)|]; reflexivity.
  - intros Hf Ht. destruct (decide (from_c = EUR)); [contradiction|].
    destruct (decide (to_c = EUR)); [contradiction|].
    destruct (rs !! value from_c) as [x|]; [|reflexivity].
    destruct (rs !! value to_c) as [y|]; [|reflexivity].
    destruct (Py.truthy x && Py.truthy y); reflexivity.
Qed.

Lemma get_rate_cases_witness :
  fst (ExchangeRateClient.get_rate scenario_client USD UZS fresh_world)
  = Ok (13870.5 / 1.0869)%float.
Proof.
  destruct (get_rate_cases scenario_client USD UZS fresh_world) as [_ H].
  destruct (H ltac:(discriminate)) as [_ H'].
  destruct (H' scenario_body eq_refl eq_refl) as (_ & _ & H3).
  exact (H3 ltac:(discriminate) ltac:(discriminate)).
Defined.

(** A zero entry, which no snapshot of positive rates has: both entries are
    in the answer, the one of GBP is zero, and [get_rate] raises instead of
    returning 0 / 2. *)
Lemma get_rate_zero_entry_raises :
  body_rates zero_rate_body !! "USD"%string = Some 2%float
  /\ body_rates zero_rate_body !! "GBP"%string = Some 0%float
  /\ fst (ExchangeRateClient.get_rate scenario_client USD GBP zero_rate_world)
     = Raise (ValueError (RateNotFound USD GBP (dom (body_rates zero_rate_body))))
  /\ fst (ExchangeRateClient.get_rate scenario_client USD GBP zero_rate_world)
     <> Ok (0 / 2)%float.
Proof.
  assert (H : fst (ExchangeRateClient.get_rate scenario_client USD GBP zero_rate_world)
     = Raise (ValueError (RateNotFound USD GBP (dom (body_rates zero_rate_body))))).
  { rewrite get_rate_run by discriminate. reflexivity. }
  split; [reflexivity|]. split; [reflexivity|]. split; [exact H|].
  rewrite H. discriminate.
Qed.

(** On an answer whose rates are all positive the truth tests pass, and the
    three cases return the entry, its reciprocal and the quotient. *)
Lemma get_rate_positive_rates self from_c to_c w data x y :
  from_c <> EUR -> to_c <> EUR -> from_c <> to_c ->
  provider w (http_sent w) (pair_params self from_c to_c) = Body data ->
  accepted data = true ->
  positive_rates (body_rates data) ->
  body_rates data !! value from_c = Some x ->
  body_rates data !! value to_c = Some y ->
  fst (ExchangeRateClient.get_rate self from_c to_c w) = Ok (y / x)%float.
Proof.
  intros Hf Ht Hne Hans Hacc Hpos Hx Hy.
  rewrite get_rate_run by exact Hne. cbn [fst].
  unfold rate_of_answer, snapshot_of. rewrite Hans, Hacc. cbn [rates].
  unfold pair_rate.
  destruct (decide (from_c = EUR)); [contradiction|].
  destruct (decide (to_c = EUR)); [contradiction|].
  rewrite Hx, Hy, (positive_truthy x (Hpos _ _ Hx)), (positive_truthy y (Hpos _ _ Hy)).
  reflexivity.
Qed.

Lemma scenario_rates_positive : positive_rates (body_rates scenario_body).
Proof.
  intros k r H. cbn in H.
  apply lookup_insert_Some in H as [[_ <-]|[_ H]]; [reflexivity|].
  apply lookup_singleton_Some in H as [_ <-]. reflexivity.
Defined.

(** C4: for equal currencies [get_rate] returns 1.0 and leaves the world as
    it was (no request is sent).  Otherwise it sends one request, with base
    EUR, for [to] when [from] is EUR, for [from] when [to] is EUR, and for
    both otherwise; from an accepted answer whose rates are all positive it
    returns the entry of [to] (from EUR), the reciprocal of the entry of
    [from] (to EUR), the entry of [to] divided by the entry of [from]
    (otherwise), and when a needed entry is missing it raises the error that
    lists the codes of the answer. *)
Theorem get_rate_pair self from_c to_c w :
  (from_c = to_c -> ExchangeRateClient.get_rate self from_c to_c w = (Ok 1%float, w))
  /\ (from_c <> to_c ->
      let p := {| access_key := access_key (pair_params self from_c to_c);
                  base_param := base_param (pair_params self from_c to_c);
                  symbols := Some (if decide (from_c = EUR) then [to_c]
                                   else if decide (to_c = EUR) then [from_c]
                                   else [from_c; to_c]) |} in
      snd (ExchangeRateClient.get_rate self from_c to_c w) = http_called p w
      /\ forall data,
           provider w (http_sent w) p = Body data ->
           accepted data = true ->
           positive_rates (body_rates data) ->
           let rs := body_rates data in
           let res := fst (ExchangeRateClient.get_rate self from_c to_c w) in
           let unavailable := Raise (ValueError (RateNotFound from_c to_c (dom rs))) in
           (from_c = EUR ->
            res = match rs !! value to_c with
                  | Some r => Ok r
                  | None => unavailable
                  end)
           /\ (from_c <> EUR -> to_c = EUR ->
               res = match rs !! value from_c with
                     | Some x => Ok (1 / x)%float
                     | None => unavailable
                     end)
           /\ (from_c <> EUR -> to_c <> EUR ->
               res = match rs !! value from_c, rs !! value to_c with
                     | Some x, Some y => Ok (y / x)%float
                     | _, _ => unavailable
                     end)).
Proof.
  split; [intros ->; apply get_rate_same|].
  intros Hne p.
  assert (Hp : p = pair_params self from_c to_c).
  { subst p. unfold pair_params, pair_targets, ExchangeRateClient.build_params.
    destruct (decide (from_c = EUR)); [|destruct (decide (to_c = EUR))]; reflexivity. }
  rewrite Hp. clear Hp p.
  rewrite get_rate_run by exact Hne. split; [reflexivity|].
  intros data Hans Hacc Hpos rs res unavailable. subst res. cbn [fst].
  unfold rate_of_answer, snapshot_of. rewrite Hans, Hacc. cbn [rates].
  fold rs. fold unavailable. unfold pair_rate.
  split; [|split].
  - intros Heur. destruct (decide (from_c = EUR)); [|contradiction].
    destruct (rs !! value to_c); reflexivity.
  - intros Hf Ht. destruct (decide (from_c = EUR)); [contradiction|].
    destruct (decide (to_c = EUR)); [|contradiction].
    destruct (rs !! value from_c) as [x|] eqn:Hx; [|reflexivity].
    rewrite (positive_truthy x (Hpos _ _ Hx)). reflexivity.
  - intros Hf Ht. destruct (decide (from_c = EUR)); [contradiction|].
    destruct (decide (to_c = EUR)); [contradiction|].
    destruct (rs !! value from_c) as [x|] eqn:Hx; [|reflexivity].
    destruct (rs !! value to_c) as [y|] eqn:Hy; [|reflexivity].
    rewrite (positive_truthy x (Hpos _ _ Hx)), (positive_truthy y (Hpos _ _ Hy)).
    reflexivity.
Qed.

Lemma get_rate_pair_witness :
  fst (ExchangeRateClient.get_rate scenario_client USD UZS fresh_world)
  = Ok (13870.5 / 1.0869)%float.
Proof.
  destruct (get_rate_pair scenario_client USD UZS fresh_world) as [_ H].
  destruct (H ltac:(discriminate)) as [_ H'].
  destruct (H' scenario_body eq_refl eq_refl scenario_rates_positive) as (_ & _ & H3).
  exact (H3 ltac:(discriminate) ltac:(discriminate)).
Defined.

(** * Snapshots *)

(** C8, as the code has it: the snapshot of a successful fetch holds the
    rates of the provider's answer, unchanged and unchecked; they are all
    strictly positive when those of the answer are. *)
Theorem snapshot_holds_answer_rates self base_c targets w d :
  fst (ExchangeRateClient.get_exchange_rates self base_c targets w) = Ok d ->
  exists data,
    provider w (http_sent w) (ExchangeRateClient.build_params self base_c targets)
    = Body data
    /\ rates d = body_rates data
    /\ (positive_rates (body_rates data) -> positive_rates (rates d)).
Proof.
  rewrite get_exchange_rates_run. cbn [fst]. unfold snapshot_of.
  destruct (provider w (http_sent w) _) as [|code|data]; try discriminate.
  destruct (accepted data); [|discriminate].
  intros [= <-]. exists data. cbn. auto.
Qed.

Lemma snapshot_holds_answer_rates_witness :
  exists data,
    provider fresh_world 0%nat
      (ExchangeRateClient.build_params scenario_client EUR (Some [USD; UZS]))
    = Body data
    /\ body_rates scenario_body = body_rates data.
Proof.
  destruct (snapshot_holds_answer_rates scenario_client EUR (Some [USD; UZS])
              fresh_world
              {| rates := body_rates scenario_body; base := EUR; e_timestamp := 0 |}
              eq_refl) as (data & H1 & H2 & _).
  exists data. split; [exact H1|exact H2].
Defined.

(** C8 fails as stated: a fetch succeeds with a snapshot that holds a
    negative rate. *)
Lemma snapshot_with_negative_rate :
  fst (ExchangeRateClient.get_exchange_rates scenario_client EUR (Some [USD])
         negative_rate_world)
  = Ok {| rates := body_rates negative_rate_body; base := EUR; e_timestamp := 0 |}
  /\ body_rates negative_rate_body !! "USD"%string = Some (-1.0869)%float
  /\ ~ positive_rates (body_rates negative_rate_body).
Proof.
  split; [reflexivity|]. split; [reflexivity|].
  intros H. specialize (H "USD"%string (-1.0869)%float eq_refl). discriminate H.
Qed.

(** * get_multiple_rates *)

Lemma value_inj c1 c2 : value c1 = value c2 -> c1 = c2.
Proof. destruct c1, c2; cbn; intros H; try reflexivity; discriminate H. Qed.

Lemma derive_into_derived d from_c m to_c :
  ExchangeRateClient.derive_into d from_c m to_c
  = match derived_rate (rates d) from_c to_c with
    | Some r => <[value to_c := r]> m
    | None => m
    end.
Proof.
  unfold ExchangeRateClient.derive_into, derived_rate.
  destruct (decide (from_c = to_c)); [reflexivity|].
  destruct (decide (from_c = EUR)).
  { destruct (rates d !! value to_c) as [r|]; [destruct (Py.truthy r)|]; reflexivity. }
  destruct (decide (to_c = EUR)).
  { destruct (rates d !! value from_c) as [x|]; [destruct (Py.truthy x)|]; reflexivity. }
  destruct (rates d !! value from_c) as [x|]; [|reflexivity].
  destruct (rates d !! value to_c) as [y|]; [|reflexivity].
  destruct (Py.truthy x && Py.truthy y); reflexivity.
Qed.

Lemma fold_derive_lookup d from_c to_cs : forall m c,
  fold_left (ExchangeRateClient.derive_into d from_c) to_cs m !! value c
  = match (if decide (c ∈ to_cs) then derived_rate (rates d) from_c c else None) with
    | Some r => Some r
    | None => m !! value c
    end.
Proof.
  induction to_cs as [|t rest IH]; intros m c; cbn [fold_left].
  - destruct (decide (c ∈ [])) as [Hin|_]; [inversion Hin|reflexivity].
  - rewrite IH, derive_into_derived.
    destruct (decide (c = t)) as [->|Hct].
    + destruct (decide (t ∈ t :: rest)) as [_|Hn]; [|exfalso; apply Hn; left].
      destruct (decide (t ∈ rest)); destruct (derived_rate (rates d) from_c t);
        try reflexivity. apply lookup_insert_eq.
    + assert (Hv : value t <> value c) by (intros Hv; apply Hct; symmetry; apply value_inj, Hv).
      assert (Hm : (match derived_rate (rates d) from_c t with
                    | Some r => <[value t := r]> m
                    | None => m
                    end) !! value c = m !! value c).
      { destruct (derived_rate (rates d) from_c t); [|reflexivity].
        apply lookup_insert_ne. exact Hv. }
      rewrite Hm.
      destruct (decide (c ∈ rest)) as [Hin|Hnin];
        destruct (decide (c ∈ t :: rest)) as [Hin'|Hnin']; try reflexivity.
      * exfalso. apply Hnin'. right. exact Hin.
      * exfalso. apply elem_of_cons in Hin' as [?|?]; [congruence|contradiction].
Qed.





(** * Two requests in a row *)

(** The same request twice, the first on a miss that the provider answers
    with a rate that is a number (not NaN), with a positive TTL and a cache
    that works throughout: the second response has the same rate and
    [cached = True], and no request is sent to the provider for it. *)
Theorem convert_twice_hits_cache self request w r :
  0 < ttl self ->
  (0 <? amount request)%float = true ->
  from_currency request <> to_currency request ->
  cache_read (_cache_key (from_currency request) (to_currency request)) w = None ->
  fst (ExchangeRateClient.get_rate (client self)
         (from_currency request) (to_currency request) w) = Ok r ->
  redis_client w = true ->
  (forall n, redis_fault w n = false) ->
  (r =? r)%float = true ->
  let first := convert self request w in
  let second := convert self request (snd first) in
  fst second
  = Ok {| r_amount := amount request;
          r_from_currency := from_currency request;
          r_to_currency := to_currency request;
          converted_amount := Py.round2 (amount request * r);
          rate := r;
          timestamp := clock w;
          cached := true |}
  /\ http_sent (snd second) = http_sent (snd first).
Proof.
  intros Httl Hpos Hne Hmiss Hok Hcl Hnf Hrr first second.
  apply Z.ltb_lt in Httl.
  pose proof (positive_not_le0 _ Hpos) as Ha.
  rewrite get_rate_run in Hok by exact Hne. cbn [fst] in Hok.
  subst second first. rewrite (convert_resolve self request w) by assumption.
  rewrite get_rate_miss by assumption. rewrite Hok. cbv beta iota zeta. cbn [snd].
  set (key := _cache_key _ _).
  set (w4 := cache_called (CacheGet key) _ _).
  assert (Hread : cache_read key w4 = Some r).
  { unfold cache_read, read_entry. cbn. unfold store_up. cbn.
    rewrite Hcl, !Hnf, Httl. cbn. rewrite lookup_insert_eq. reflexivity. }
  rewrite convert_resolve by assumption. fold key.
  rewrite (get_rate_hit _ _ _ _ _ r Hread).
  set (w5 := cache_called (CacheGet key) (redis_db w4) w4).
  assert (Hread5 : cache_read key w5 = Some r).
  { unfold cache_read, read_entry. cbn. unfold store_up. cbn.
    rewrite Hcl, !Hnf, Httl. cbn. rewrite lookup_insert_eq. reflexivity. }
  rewrite Hread5. cbn. rewrite Hrr. split; reflexivity.
Qed.

(** * The theorems at the examples *)

Lemma convert_falls_back_witness :
  fst (convert scenario_service usd_eur_100 provider_down_world)
  = Ok {| r_amount := 100;
          r_from_currency := USD;
          r_to_currency := EUR;
          converted_amount := Py.round2 (100 * 0.92);
          rate := 0.92;
          timestamp := 0;
          cached := false |}
  /\ redis_db (snd (convert scenario_service usd_eur_100 provider_down_world)) = ∅.
Proof.
  destruct (convert_falls_back scenario_service usd_eur_100 provider_down_world
              RequestError 0.92%float) as (H1 & _ & H2 & _).
  - reflexivity.
  - discriminate.
  - reflexivity.
  - reflexivity.
  - reflexivity.
  - split; [exact H1|exact H2].
Defined.

Lemma get_rate_direct_bypasses_cache_witness :
  fst (get_rate_direct scenario_service USD EUR false provider_down_world)
  = Raise RequestError
  /\ trace (snd (get_rate_direct scenario_service USD EUR false provider_down_world))
     = [HttpGet (pair_params scenario_client USD EUR)]
  /\ fst (get_rate_direct scenario_service USD EUR true provider_down_world)
     = Ok 0.92%float.
Proof.
  destruct (get_rate_direct_bypasses_cache scenario_service USD EUR provider_down_world)
    as [(_ & Htrace & _ & _ & _ & Hdown & _) (_ & _ & Hmiss)]; [discriminate|].
  split; [apply Hdown; reflexivity|]. split; [exact Htrace|].
  destruct (Hmiss eq_refl) as [_ Hfail].
  destruct (Hfail RequestError (Hdown eq_refl)) as [H _]. exact H.
Defined.


Lemma convert_batch_keeps_successes_witness :
  exists l,
    fst (convert_batch scenario_service batch_of_three fresh_world) = Ok l
    /\ length l = 2%nat.
Proof.
  destruct (convert_batch_keeps_successes scenario_service batch_of_three fresh_world)
    as (_ & _ & _ & _ & H3 & _).
  apply H3; reflexivity.
Defined.

Lemma convert_twice_hits_cache_witness :
  fst (convert scenario_service usd_uzs_100
         (snd (convert scenario_service usd_uzs_100 fresh_world)))
  = Ok {| r_amount := 100;
          r_from_currency := USD;
          r_to_currency := UZS;
          converted_amount := Py.round2 (100 * 12761.523599227161);
          rate := 12761.523599227161;
          timestamp := 0;
          cached := true |}.
Proof.
  apply (convert_twice_hits_cache scenario_service usd_uzs_100 fresh_world
           12761.523599227161%float); try reflexivity; discriminate.
Defined.

(** A request between equal currencies with a positive amount is answered
    with the amount itself, rate 1.0 and [cached = False], and the world is
    left as it was: no call on the cache or the provider. *)
Theorem convert_identity self request w :
  (0 <? amount request)%float = true ->
  from_currency request = to_currency request ->
  convert self request w
  = (Ok {| r_amount := amount request;
           r_from_currency := from_currency request;
           r_to_currency := to_currency request;
           converted_amount := amount request;
           rate := 1%float;
           timestamp := clock w;
           cached := false |}, w).
Proof.
  intros Hpos Heq. apply convert_same_currency; [|exact Heq].
  apply positive_not_le0. exact Hpos.
Qed.

Lemma convert_identity_witness :
  snd (convert scenario_service {| amount := 50; from_currency := EUR; to_currency := EUR |}
         fresh_world) = fresh_world.
Proof.
  rewrite (convert_identity scenario_service
             {| amount := 50; from_currency := EUR; to_currency := EUR |} fresh_world);
    reflexivity.
Defined.

(** A request whose amount is not positive is rejected before any call on
    the cache or the provider. *)
Theorem convert_rejects_non_positive self request w :
  (amount request <=? 0)%float = true ->
  convert self request w = (Raise (ValueError AmountNotPositive), w).
Proof. apply convert_invalid. Qed.

Lemma convert_rejects_non_positive_witness :
  convert scenario_service {| amount := 0; from_currency := USD; to_currency := UZS |}
    fresh_world
  = (Raise (ValueError AmountNotPositive), fresh_world).
Proof.
  apply (convert_rejects_non_positive scenario_service
           {| amount := 0; from_currency := USD; to_currency := UZS |} fresh_world).
  reflexivity.
Defined.

(** * Cache keys *)

Lemma cache_key_split from_c to_c :
  _cache_key from_c to_c
  = ("exchange_rate:" +:+ value from_c +:+ ":") +:+ value to_c.
Proof. destruct from_c; reflexivity. Qed.

Lemma cache_key_inj from_c to_c from_c' to_c' :
  _cache_key from_c to_c = _cache_key from_c' to_c' ->
  from_c = from_c' /\ to_c = to_c'.
Proof.
  intros H.
  assert (Hf : from_c = from_c').
  { destruct from_c, from_c'; try reflexivity; cbn in H; discriminate H. }
  subst from_c'. split; [reflexivity|].
  apply value_inj. unfold _cache_key, CACHE_PREFIX in H.
  destruct from_c; vm_compute in H; injection H as H;
    destruct to_c, to_c'; first [reflexivity | discriminate H].
Qed.

(** The key of a pair is the text [exchange_rate:FROM:TO]: two ordered
    pairs have the same key only if they are the same pair (so a pair and
    its reverse never share an entry), and every key matches the pattern
    [exchange_rate:*] that the statistics count. *)
Theorem cache_key_injective from_c to_c from_c' to_c' :
  (_cache_key from_c to_c = _cache_key from_c' to_c'
   <-> from_c = from_c' /\ to_c = to_c')
  /\ _cache_key from_c to_c
     = ("exchange_rate:" +:+ value from_c +:+ ":" +:+ value to_c)%string
  /\ RedisCacheStatus.matches_rate_keys (_cache_key from_c to_c) = true.
Proof.
  split; [split; [apply cache_key_inj|intros [-> ->]; reflexivity]|].
  split; [destruct from_c; reflexivity|].
  destruct from_c, to_c; reflexivity.
Qed.

(** * The cache operations composed *)

(** Written and read back: when [set], with a positive TTL, and the
    operation after it are delivered, [get] returns the value just set (also
    over an older value of the key), [exists] says the key is there, and the
    other keys hold what they held.  With a TTL that is not positive the
    server refuses the write, [set] returns normally all the same, and the
    database is as it was. *)
Theorem cache_set_then_get key v ttl_s w :
  redis_client w = true ->
  redis_fault w (redis_sent w) = false ->
  redis_fault w (S (redis_sent w)) = false ->
  let w1 := snd (RedisCache.set key v ttl_s w) in
  fst (RedisCache.set key v ttl_s w) = Ok tt
  /\ (0 < ttl_s ->
      fst (RedisCache.get key w1) = Ok (Some v)
      /\ fst (RedisCache.exists_ key w1) = Ok true
      /\ redis_db w1 !! key = Some (JsonNumber v, ttl_s)
      /\ forall k, k <> key -> redis_db w1 !! k = redis_db w !! k)
  /\ (ttl_s <= 0 -> redis_db w1 = redis_db w).
Proof.
  intros Hcl Hf0 Hf1 w1. subst w1. rewrite set_run. cbn [fst snd].
  split; [reflexivity|]. unfold store_up. rewrite Hcl, Hf0. cbn [andb negb]. split.
  - intros Httl. apply Z.ltb_lt in Httl. rewrite Httl.
    rewrite get_run, exists_run. cbn [fst].
    unfold cache_read, read_entry, store_up. cbn.
    rewrite Hcl, Hf1. cbn. rewrite lookup_insert_eq. cbn.
    split; [reflexivity|]. split; [|split; [reflexivity|]].
    + first [reflexivity | f_equal; apply bool_decide_eq_true; eexists; reflexivity].
    + intros k Hk. apply lookup_insert_ne. congruence.
  - intros Httl. apply Z.ltb_ge in Httl. rewrite Httl. reflexivity.
Qed.

Lemma cache_set_then_get_witness :
  fst (RedisCache.get "exchange_rate:USD:EUR"
         (snd (RedisCache.set "exchange_rate:USD:EUR" 0.92 1800 fresh_world)))
  = Ok (Some 0.92%float).
Proof.
  destruct (cache_set_then_get "exchange_rate:USD:EUR" 0.92%float 1800 fresh_world)
    as (_ & H & _); [reflexivity..|].
  apply H. reflexivity.
Defined.

(** Removed and looked up: when [delete] (or [clear]) and the operation
    after it are delivered, the deleted key (after [clear], every key) is
    absent for [get] and for [exists]; [delete] leaves the other keys as
    they were. *)
Theorem cache_delete_and_clear_then_get key w :
  redis_client w = true ->
  redis_fault w (redis_sent w) = false ->
  redis_fault w (S (redis_sent w)) = false ->
  let w1 := snd (RedisCache.delete key w) in
  let w2 := snd (RedisCache.clear w) in
  (fst (RedisCache.get key w1) = Ok None
   /\ fst (RedisCache.exists_ key w1) = Ok false
   /\ forall k, k <> key -> redis_db w1 !! k = redis_db w !! k)
  /\ forall k,
       fst (RedisCache.get k w2) = Ok None
       /\ fst (RedisCache.exists_ k w2) = Ok false.
Proof.
  intros Hcl Hf0 Hf1 w1 w2. subst w1 w2. rewrite delete_run, clear_run. cbn [snd].
  split.
  - rewrite get_run, exists_run. cbn [fst].
    unfold cache_read, read_entry, store_up. cbn.
    rewrite Hcl, Hf0, Hf1. cbn. rewrite lookup_delete_eq. cbn.
    split; [reflexivity|]. split.
    + first [reflexivity
            | f_equal; apply bool_decide_eq_false; intros [x Hx]; discriminate Hx].
    + intros k Hk. apply lookup_delete_ne. congruence.
  - intros k. rewrite get_run, exists_run. cbn [fst].
    unfold cache_read, read_entry, store_up. cbn.
    rewrite Hcl, Hf0, Hf1. cbn. rewrite lookup_empty. cbn.
    split; [reflexivity|].
    first [reflexivity
          | f_equal; apply bool_decide_eq_false; intros [x Hx]; discriminate Hx].
Qed.

Lemma cache_delete_and_clear_then_get_witness :
  fst (RedisCache.get "exchange_rate:USD:EUR"
         (snd (RedisCache.delete "exchange_rate:USD:EUR"
                 (snd (RedisCache.set "exchange_rate:USD:EUR" 0.92 1800 fresh_world)))))
  = Ok None.
Proof.
  apply (cache_delete_and_clear_then_get "exchange_rate:USD:EUR"
           (snd (RedisCache.set "exchange_rate:USD:EUR" 0.92 1800 fresh_world)));
    reflexivity.
Defined.

(** * The outcomes of convert *)

Lemma convert_raise_cases self request w e :
  fst (convert self request w) = Raise e ->
  (e = ValueError AmountNotPositive /\ (amount request <=? 0)%float = true
   /\ snd (convert self request w) = w)
  \/ (e = ValueError (CouldNotGetRate (from_currency request) (to_currency request))
      /\ (amount request <=? 0)%float = false
      /\ from_currency request <> to_currency request
      /\ fallback_of (from_currency request) (to_currency request) = None
      /\ cache_read (_cache_key (from_currency request) (to_currency request)) w = None).
Proof.
  destruct (amount request <=? 0)%float eqn:Ha.
  { rewrite convert_invalid by exact Ha. intros [= <-]. left. auto. }
  destruct (decide (from_currency request = to_currency request)) as [Heq|Hne].
  { rewrite convert_same_currency by assumption. discriminate. }
  rewrite (convert_resolve self request w) by assumption.
  destruct (cache_read (_cache_key (from_currency request) (to_currency request)) w)
    as [r|] eqn:Hc.
  { rewrite (get_rate_hit _ _ _ _ _ r Hc). discriminate. }
  rewrite get_rate_miss by assumption.
  destruct (rate_of_answer _ _ _ _ _); [discriminate|].
  destruct (fallback_of _ _) eqn:Hfb; [discriminate|].
  cbn. intros [= <-]. right. auto.
Qed.



(** The last step of the resolution: on a miss, a failing provider call
    and a pair that the fallback table does not have, [convert] raises the
    error that names both currencies; it has read the cache once and sent
    one request, and the database is as it was. *)
Theorem convert_unresolved self request w e :
  (0 <? amount request)%float = true ->
  from_currency request <> to_currency request ->
  cache_read (_cache_key (from_currency request) (to_currency request)) w = None ->
  fst (ExchangeRateClient.get_rate (client self)
         (from_currency request) (to_currency request) w) = Raise e ->
  fallback_of (from_currency request) (to_currency request) = None ->
  let key := _cache_key (from_currency request) (to_currency request) in
  let p := pair_params (client self) (from_currency request) (to_currency request) in
  let run := convert self request w in
  fst run = Raise (ValueError (CouldNotGetRate (from_currency request) (to_currency request)))
  /\ trace (snd run) = trace w ++ [CacheGet key; HttpGet p]
  /\ redis_db (snd run) = redis_db w.
Proof.
  intros Hpos Hne Hmiss Hfail Hfb key p run.
  pose proof (positive_not_le0 _ Hpos) as Ha.
  rewrite get_rate_run in Hfail by exact Hne. cbn [fst] in Hfail.
  subst run. rewrite convert_resolve by assumption.
  rewrite get_rate_miss by assumption. rewrite Hfail, Hfb. cbn.
  split; [reflexivity|]. split; [|reflexivity].
  rewrite <- app_assoc. reflexivity.
Qed.

Lemma convert_unresolved_witness :
  fst (convert scenario_service gbp_jpy_100 provider_down_world)
  = Raise (ValueError (CouldNotGetRate GBP JPY)).
Proof.
  apply (convert_unresolved scenario_service gbp_jpy_100 provider_down_world RequestError);
    first [reflexivity | discriminate].
Defined.

Lemma fallback_covers from_c to_c :
  from_c <> to_c ->
  from_c = USD \/ to_c = USD \/ to_c = EUR ->
  is_Some (fallback_of from_c to_c).
Proof.
  intros Hne H.
  destruct from_c, to_c; try congruence;
    first [ eexists; reflexivity
          | exfalso; destruct H as [H|[H|H]]; discriminate H ].
Qed.

(** When the lookup of the pair misses, a conversion from USD, or into USD
    or EUR, of an amount that passes the amount check never fails, in any
    state of the provider: these pairs are all in the fallback table. *)
Theorem convert_succeeds_with_fallback self request w :
  cache_read (_cache_key (from_currency request) (to_currency request)) w = None ->
  (amount request <=? 0)%float = false ->
  from_currency request = USD \/ to_currency request = USD \/ to_currency request = EUR ->
  is_ok (fst (convert self request w)) = true.
Proof.
  intros _ Ha Hpair.
  destruct (fst (convert self request w)) as [r|e] eqn:Hrun; [reflexivity|].
  exfalso. destruct (convert_raise_cases _ _ _ _ Hrun) as [(_ & H & _)|(_ & _ & Hne & Hfb & _)].
  - congruence.
  - destruct (fallback_covers _ _ Hne Hpair) as [x Hx]. congruence.
Qed.

Lemma convert_succeeds_with_fallback_witness :
  is_ok (fst (convert scenario_service usd_eur_100 provider_down_world)) = true.
Proof.
  apply (convert_succeeds_with_fallback scenario_service usd_eur_100 provider_down_world).
  - reflexivity.
  - reflexivity.
  - left. reflexivity.
Defined.



(** Without a Redis client [convert] still answers from the provider: the
    response has the provider's rate and [cached = False], no command is
    sent to Redis and the database is as it was. *)
Theorem convert_without_cache self request w r :
  redis_client w = false ->
  (0 <? amount request)%float = true ->
  from_currency request <> to_currency request ->
  fst (ExchangeRateClient.get_rate (client self)
         (from_currency request) (to_currency request) w) = Ok r ->
  let run := convert self request w in
  fst run
  = Ok {| r_amount := amount request;
          r_from_currency := from_currency request;
          r_to_currency := to_currency request;
          converted_amount := Py.round2 (amount request * r);
          rate := r;
          timestamp := clock w;
          cached := false |}
  /\ redis_sent (snd run) = redis_sent w
  /\ redis_db (snd run) = redis_db w.
Proof.
  intros Hcl Hpos Hne Hok run.
  pose proof (positive_not_le0 _ Hpos) as Ha.
  rewrite get_rate_run in Hok by exact Hne. cbn [fst] in Hok.
  assert (Hmiss : forall k w', redis_client w' = false -> cache_read k w' = None).
  { intros k w' H. unfold cache_read, store_up. rewrite H. reflexivity. }
  subst run. rewrite convert_resolve by assumption.
  rewrite get_rate_miss by (try assumption; apply Hmiss; exact Hcl).
  rewrite Hok. cbv beta iota zeta.
  rewrite (Hmiss _ (cache_called _ _ _)) by exact Hcl.
  unfold store_up. cbn. rewrite Hcl. cbn. auto.
Qed.

Lemma convert_without_cache_witness :
  fst (convert scenario_service usd_uzs_100 no_cache_world)
  = Ok {| r_amount := 100;
          r_from_currency := USD;
          r_to_currency := UZS;
          converted_amount := Py.round2 (100 * 12761.523599227161);
          rate := 12761.523599227161;
          timestamp := 0;
          cached := false |}.
Proof.
  apply (convert_without_cache scenario_service usd_uzs_100 no_cache_world
           12761.523599227161%float); first [reflexivity | discriminate].
Defined.

(** * The client on its own *)

Lemma get_multiple_rates_run self from_c to_cs w :
  let to_fetch := ExchangeRateClient.currencies_to_fetch from_c to_cs in
  let p := ExchangeRateClient.build_params self EUR
             (match to_fetch with [] => None | _ => Some to_fetch end) in
  ExchangeRateClient.get_multiple_rates self from_c to_cs w
  = (match snapshot_of self EUR (clock w) (provider w (http_sent w) p) with
     | Ok d =>
         if bool_decide
              (fold_left (ExchangeRateClient.derive_into d from_c) to_cs ∅ = ∅)
         then Raise (ValueError (NoRatesFound from_c to_cs))
         else Ok (fold_left (ExchangeRateClient.derive_into d from_c) to_cs ∅)
     | Raise e => Raise e
     end, http_called p w).
Proof.
  intros to_fetch p.
  unfold ExchangeRateClient.get_multiple_rates, try_except, bind.
  fold to_fetch. rewrite get_exchange_rates_run. fold p.
  destruct (snapshot_of _ _ _ _) as [d|e]; [|reflexivity].
  cbv zeta. destruct (bool_decide _); reflexivity.
Qed.

(** The three methods of the client never touch the cache: the database,
    the client and the count of commands sent to Redis are as before, no
    call on the cache is recorded, and at most one request is sent to the
    provider. *)
Theorem client_leaves_cache_alone self base_c targets from_c to_c to_cs w :
  let untouched w' :=
    redis_db w' = redis_db w
    /\ redis_client w' = redis_client w
    /\ redis_sent w' = redis_sent w
    /\ List.filter is_cache_event (trace w') = List.filter is_cache_event (trace w)
    /\ (http_sent w' <= S (http_sent w))%nat in
  untouched (snd (ExchangeRateClient.get_exchange_rates self base_c targets w))
  /\ untouched (snd (ExchangeRateClient.get_rate self from_c to_c w))
  /\ untouched (snd (ExchangeRateClient.get_multiple_rates self from_c to_cs w)).
Proof.
  intros untouched.
  assert (Hcall : forall p, untouched (http_called p w)).
  { intros p. subst untouched. cbn beta.
    repeat split; try reflexivity; apply filter_cache_http_called. }
  split; [rewrite get_exchange_rates_run; apply Hcall|].
  split; [|rewrite get_multiple_rates_run; apply Hcall].
  destruct (decide (from_c = to_c)) as [->|Hne].
  - rewrite get_rate_same. subst untouched. cbn beta. repeat split; try reflexivity.
    cbn. lia.
  - rewrite get_rate_run by exact Hne. apply Hcall.
Qed.

(** With an API key the requested base currency is ignored: the request
    carries the key and no base, the outcome is the same for every
    requested base, and the snapshot says EUR. *)
Theorem forced_base_ignores_requested_base self b1 b2 targets w :
  ExchangeRateClient.nonempty (ExchangeRateClient.api_key self) = true ->
  ExchangeRateClient.get_exchange_rates self b1 targets w
  = ExchangeRateClient.get_exchange_rates self b2 targets w
  /\ base_param (ExchangeRateClient.build_params self b1 targets) = None
  /\ access_key (ExchangeRateClient.build_params self b1 targets)
     = Some (ExchangeRateClient.api_key self)
  /\ forall d,
       fst (ExchangeRateClient.get_exchange_rates self b1 targets w) = Ok d ->
       base d = EUR.
Proof.
  intros Hkey.
  assert (Hp : ExchangeRateClient.build_params self b1 targets
               = ExchangeRateClient.build_params self b2 targets).
  { unfold ExchangeRateClient.build_params. rewrite Hkey. reflexivity. }
  rewrite !get_exchange_rates_run, Hp.
  split; [|split; [|split]].
  - f_equal. unfold snapshot_of. rewrite Hkey. reflexivity.
  - unfold ExchangeRateClient.build_params. rewrite Hkey. reflexivity.
  - unfold ExchangeRateClient.build_params. rewrite Hkey. reflexivity.
  - intros d. cbn [fst]. unfold snapshot_of.
    destruct (provider w (http_sent w) _) as [|code|data]; try discriminate.
    destruct (accepted data); [|discriminate]. rewrite Hkey. intros [= <-]. reflexivity.
Qed.

Lemma forced_base_ignores_requested_base_witness :
  ExchangeRateClient.get_exchange_rates scenario_client USD (Some [UZS]) fresh_world
  = ExchangeRateClient.get_exchange_rates scenario_client GBP (Some [UZS]) fresh_world.
Proof.
  apply (forced_base_ignores_requested_base scenario_client USD GBP (Some [UZS]) fresh_world).
  reflexivity.
Defined.

Lemma derived_rate_pair_rate rs from_c to_c r :
  from_c <> to_c ->
  derived_rate rs from_c to_c = Some r ->
  pair_rate rs from_c to_c = Some r.
Proof.
  intros Hne. unfold derived_rate, pair_rate.
  destruct (decide (from_c = to_c)); [contradiction|].
  destruct (decide (from_c = EUR)); [|intros H; exact H].
  destruct (rs !! value to_c) as [x|]; [|discriminate].
  destruct (Py.truthy x); [|discriminate]. intros H. exact H.
Qed.

(** The two ways to a rate agree: when the answers to the two requests
    carry the same rates, a rate that [get_multiple_rates] returns for a
    target other than [from] is the rate that [get_rate] returns for the
    pair. *)
Theorem get_multiple_rates_agrees_with_get_rate self from_c to_c to_cs w data data' m r :
  from_c <> to_c ->
  to_c ∈ to_cs ->
  provider w (http_sent w)
    (ExchangeRateClient.build_params self EUR
       (match ExchangeRateClient.currencies_to_fetch from_c to_cs with
        | [] => None
        | l => Some l
        end)) = Body data ->
  provider w (http_sent w) (pair_params self from_c to_c) = Body data' ->
  accepted data' = true ->
  body_rates data = body_rates data' ->
  fst (ExchangeRateClient.get_multiple_rates self from_c to_cs w) = Ok m ->
  m !! value to_c = Some r ->
  fst (ExchangeRateClient.get_rate self from_c to_c w) = Ok r.
Proof.
  intros Hne Hin Hans Hans' Hacc' Hrates Hm Hr.
  rewrite get_multiple_rates_run in Hm. cbn [fst] in Hm.
  assert (Hans2 : provider w (http_sent w)
    (ExchangeRateClient.build_params self EUR
       (match ExchangeRateClient.currencies_to_fetch from_c to_cs with
        | [] => None
        | _ :: _ => Some (ExchangeRateClient.currencies_to_fetch from_c to_cs)
        end)) = Body data).
  { rewrite <- Hans. f_equal. f_equal.
    destruct (ExchangeRateClient.currencies_to_fetch from_c to_cs); reflexivity. }
  rewrite Hans2 in Hm. unfold snapshot_of in Hm.
  destruct (accepted data); [|discriminate Hm].
  destruct (bool_decide _); [discriminate Hm|].
  injection Hm as <-. rewrite fold_derive_lookup in Hr. cbn [rates] in Hr.
  destruct (decide (to_c ∈ to_cs)); [|contradiction].
  rewrite lookup_empty in Hr.
  destruct (derived_rate (body_rates data) from_c to_c) as [r'|] eqn:Hd; [|discriminate Hr].
  injection Hr as ->.
  rewrite get_rate_run by exact Hne. cbn [fst].
  unfold rate_of_answer, snapshot_of. rewrite Hans', Hacc'. cbn [rates].
  rewrite <- Hrates, (derived_rate_pair_rate _ _ _ _ Hne Hd). reflexivity.
Qed.

Lemma get_multiple_rates_agrees_with_get_rate_witness :
  fst (ExchangeRateClient.get_rate scenario_client USD UZS fresh_world)
  = Ok (13870.5 / 1.0869)%float.
Proof.
  apply (get_multiple_rates_agrees_with_get_rate scenario_client USD UZS [UZS; GBP]
           fresh_world scenario_body scenario_body
           {[ "UZS"%string := (13870.5 / 1.0869)%float ]});
    first [reflexivity | discriminate | idtac].
  left.
Defined.

(** Two edges of [get_multiple_rates]: with no target it never returns a
    result (and still sends its request); with [from] among the targets and
    an accepted answer it always returns one, in which [from] has rate
    1.0. *)
Theorem get_multiple_rates_edges self from_c to_cs w :
  (to_cs = [] ->
   is_ok (fst (ExchangeRateClient.get_multiple_rates self from_c to_cs w)) = false
   /\ http_sent (snd (ExchangeRateClient.get_multiple_rates self from_c to_cs w))
      = S (http_sent w))
  /\ (from_c ∈ to_cs ->
      forall data,
        provider w (http_sent w)
          (ExchangeRateClient.build_params self EUR
             (match ExchangeRateClient.currencies_to_fetch from_c to_cs with
              | [] => None
              | l => Some l
              end)) = Body data ->
        accepted data = true ->
        exists m,
          fst (ExchangeRateClient.get_multiple_rates self from_c to_cs w) = Ok m
          /\ m !! value from_c = Some 1%float).
Proof.
  rewrite get_multiple_rates_run. cbn [fst snd]. split.
  - intros ->. split; [|reflexivity]. cbn [fold_left].
    destruct (snapshot_of _ _ _ _); [|reflexivity].
    rewrite bool_decide_eq_true_2 by reflexivity. reflexivity.
  - intros Hin data Hans Hacc.
    assert (Hans2 : provider w (http_sent w)
      (ExchangeRateClient.build_params self EUR
         (match ExchangeRateClient.currencies_to_fetch from_c to_cs with
          | [] => None
          | _ :: _ => Some (ExchangeRateClient.currencies_to_fetch from_c to_cs)
          end)) = Body data).
    { rewrite <- Hans. f_equal. f_equal.
      destruct (ExchangeRateClient.currencies_to_fetch from_c to_cs); reflexivity. }
    rewrite Hans2. unfold snapshot_of. rewrite Hacc.
    set (d := {| rates := body_rates data; base := _; e_timestamp := _ |}).
    assert (Hone : fold_left (ExchangeRateClient.derive_into d from_c) to_cs ∅
                     !! value from_c = Some 1%float).
    { rewrite fold_derive_lookup. destruct (decide (from_c ∈ to_cs)); [|contradiction].
      unfold derived_rate. destruct (decide (from_c = from_c)); [reflexivity|congruence]. }
    case_bool_decide as Hempty.
    + rewrite Hempty, lookup_empty in Hone. discriminate Hone.
    + eexists. split; [reflexivity|exact Hone].
Qed.

Lemma get_multiple_rates_edges_witness :
  is_ok (fst (ExchangeRateClient.get_multiple_rates scenario_client USD [] fresh_world))
  = false.
Proof.
  destruct (get_multiple_rates_edges scenario_client USD [] fresh_world) as [H _].
  apply (H eq_refl).
Defined.

(** * Health and statistics *)

Lemma ping_run w :
  AsyncRedisConnection.ping w
  = (Ok (store_up w),
     {| redis_client := redis_client w; redis_db := redis_db w;
        redis_fault := redis_fault w;
        redis_sent := if redis_client w then S (redis_sent w) else redis_sent w;
        provider := provider w; http_sent := http_sent w;
        trace := trace w; clock := clock w |}).
Proof.
  destruct w as [cl db fl n pr h tr ck].
  unfold AsyncRedisConnection.ping, AsyncRedisConnection.PING, RedisCache.send,
    RedisCache.client_is_none, store_up, bind, try_except, ret. cbn.
  destruct cl; cbn; [|reflexivity]. destruct (fl n); reflexivity.
Qed.

(** [health_check] always returns its three fields, never the error
    record and never an exception: the status is "healthy" exactly when the
    ping is delivered and the provider gives a rate for USD to EUR.  It
    sends one request to the provider each time and makes no call that reads
    or writes the cache, so the check is never answered from the cache and
    leaves the database as it was. *)
Theorem health_check_report self w :
  let run := ServiceStatus.health_check self w in
  let cache_ok := store_up w in
  let api_ok := is_ok (fst (ExchangeRateClient.get_rate (client self) USD EUR w)) in
  fst run
  = Ok (ServiceStatus.Health
          (if cache_ok && api_ok then "healthy" else "degraded")
          (if cache_ok then "connected" else "disconnected")
          (if api_ok then "available" else "unavailable"))
  /\ trace (snd run) = trace w ++ [HttpGet (pair_params (client self) USD EUR)]
  /\ http_sent (snd run) = S (http_sent w)
  /\ redis_db (snd run) = redis_db w.
Proof.
  intros run cache_ok api_ok. subst run cache_ok api_ok.
  unfold ServiceStatus.health_check, ServiceStatus._test_api,
    RedisCacheStatus.is_connected, try_except, bind.
  rewrite ping_run. rewrite !get_rate_run by discriminate. cbn [fst snd provider http_sent clock].
  destruct (rate_of_answer _ _ _ _ _); cbn; auto.
Qed.

Lemma stats_counts (db : gmap string (payload * Z)) :
  let cached :=
    size (filter (fun kv : string * (payload * Z) =>
                    RedisCacheStatus.matches_rate_keys (fst kv) = true) db) in
  (cached <= size db)%nat
  /\ forall from_c to_c, is_Some (db !! _cache_key from_c to_c) -> (1 <= cached)%nat.
Proof.
  intros cached. split.
  - apply map_subseteq_size, map_filter_subseteq.
  - intros from_c to_c [x Hx].
    assert (Hne : cached <> 0%nat).
    { apply (map_size_ne_0_lookup_2 _ (_cache_key from_c to_c)). exists x.
      apply map_lookup_filter_Some. split; [exact Hx|].
      cbn. destruct from_c, to_c; reflexivity. }
    lia.
Qed.

(** [get_stats] never raises.  Without a client it says "not_connected"
    and sends nothing; with a client and its three exchanges delivered it
    reports the number of keys of the database and, as cached rates, the
    number of keys that start with [exchange_rate:], which is at most the
    number of keys and counts every key the service writes; if Redis fails
    on an exchange it says "error".  The database is left as it was, and
    [get_cache_stats] of the service returns the same statistics, never its
    error record. *)
Theorem get_stats_report reply w :
  let run := RedisCacheStatus.get_stats reply w in
  let n := redis_sent w in
  let cached :=
    size (filter (fun kv : string * (payload * Z) =>
                    RedisCacheStatus.matches_rate_keys (fst kv) = true) (redis_db w)) in
  (redis_client w = false -> run = (Ok RedisCacheStatus.NotConnected, w))
  /\ (redis_client w = true ->
      redis_fault w n = false -> redis_fault w (S n) = false ->
      redis_fault w (S (S n)) = false ->
      fst run
      = Ok (RedisCacheStatus.Connected
              (default "N/A"%string (RedisCacheStatus.used_memory_human reply))
              (default 0 (RedisCacheStatus.connected_clients reply))
              (default 0 (RedisCacheStatus.total_commands_processed reply))
              (size (redis_db w)) cached)
      /\ (cached <= size (redis_db w))%nat
      /\ forall from_c to_c,
           is_Some (redis_db w !! _cache_key from_c to_c) -> (1 <= cached)%nat)
  /\ (redis_client w = true ->
      redis_fault w n = true \/ redis_fault w (S n) = true
      \/ redis_fault w (S (S n)) = true ->
      fst run = Ok RedisCacheStatus.StatsError)
  /\ redis_db (snd run) = redis_db w
  /\ fst (ServiceStatus.get_cache_stats reply w)
     = match fst run with
       | Ok s => Ok (ServiceStatus.Stats s)
       | Raise e => Raise e
       end
  /\ is_ok (fst run) = true.
Proof.
  intros run n cached. subst run n.
  destruct w as [cl db fl n pr h tr ck].
  unfold ServiceStatus.get_cache_stats, RedisCacheStatus.get_stats,
    RedisCacheStatus.INFO, RedisCacheStatus.DBSIZE, RedisCacheStatus.SCAN_COUNT,
    RedisCache.send, RedisCache.client_is_none, bind, try_except, ret.
  cbn in *.
  destruct cl; cbn.
  2:{ repeat split; try reflexivity; try discriminate. }
  split; [discriminate|].
  destruct (fl n) eqn:H0; cbn.
  { repeat split; try reflexivity; try discriminate. }
  destruct (fl (S n)) eqn:H1; cbn.
  { repeat split; try reflexivity; try discriminate. }
  destruct (fl (S (S n))) eqn:H2; cbn.
  { repeat split; try reflexivity; try discriminate. }
  split.
  - intros _ _ _ _. split; [reflexivity|]. apply stats_counts.
  - split; [|repeat split; reflexivity].
    intros _ [H|[H|H]]; discriminate H.
Qed.

Lemma get_stats_report_witness :
  fst (RedisCacheStatus.get_stats
         {| RedisCacheStatus.used_memory_human := None;
            RedisCacheStatus.connected_clients := Some 1;
            RedisCacheStatus.total_commands_processed := None |}
         cached_rate_world)
  = Ok (RedisCacheStatus.Connected "N/A" 1 0 1 1).
Proof.
  destruct (get_stats_report
              {| RedisCacheStatus.used_memory_human := None;
                 RedisCacheStatus.connected_clients := Some 1;
                 RedisCacheStatus.total_commands_processed := None |}
              cached_rate_world) as (_ & H & _).
  destruct H as (H & _); [reflexivity..|exact H].
Defined.

(** * The routes *)

(** The convert route answers 200 with the response of [convert], 400 with
    the text of a ValueError that [convert] raises, and 503 "Service
    unavailable" for any other exception; the world is the one [convert]
    left.  When the lookup of the pair misses it never answers 503: a
    provider that is down and a pair without fallback give a 400. *)
Theorem route_convert_statuses service request w :
  cache_read (_cache_key (from_currency request) (to_currency request)) w = None ->
  let run := convert service request w in
  let answer := Routers.convert service request w in
  snd answer = snd run
  /\ (forall response, fst run = Ok response -> fst answer = Routers.Reply response)
  /\ (forall e,
        fst run = Raise e ->
        Routers.is_value_error e = true
        /\ fst answer = Routers.HTTPException 400 (Routers.DetailOf e))
  /\ (forall d, fst answer <> Routers.HTTPException 503 d).
Proof.
  intros _ run answer. subst run answer. unfold Routers.convert.
  destruct (convert service request w) as [[response|e] w'] eqn:Hrun.
  - cbn. repeat split; try discriminate. intros ? [= <-]. reflexivity.
  - assert (Hv : Routers.is_value_error e = true).
    { destruct (convert_raise_cases service request w e) as [[-> _]|[-> _]];
        [rewrite Hrun|..]; reflexivity. }
    rewrite Hv. cbn. split; [reflexivity|]. split; [discriminate|].
    split; [|discriminate].
    intros ? [= <-]. split; [exact Hv|reflexivity].
Qed.

Lemma route_convert_statuses_witness :
  fst (Routers.convert scenario_service gbp_jpy_100 provider_down_world)
  = Routers.HTTPException 400 (Routers.DetailOf (ValueError (CouldNotGetRate GBP JPY))).
Proof.
  destruct (route_convert_statuses scenario_service gbp_jpy_100 provider_down_world eq_refl)
    as (_ & _ & H & _).
  destruct (H (ValueError (CouldNotGetRate GBP JPY)) eq_refl) as [_ H']. exact H'.
Defined.

(** The batch route answers 200 with the responses of the requests that
    succeed, or 503 "Batch conversion failed"; the 503 comes exactly when
    every request fails, which includes the empty batch. *)
Theorem route_batch_convert_statuses service requests w :
  let outs := batch_outcomes service requests w in
  let answer := fst (Routers.batch_convert service requests w) in
  (answer = Routers.HTTPException 503 (Routers.DetailText "Batch conversion failed")
   <-> Forall (fun o => is_ok o = false) outs)
  /\ (Exists (fun o => is_ok o = true) outs -> answer = Routers.Reply (successes outs))
  /\ (requests = [] ->
      answer = Routers.HTTPException 503 (Routers.DetailText "Batch conversion failed")).
Proof.
  intros outs answer. subst outs answer. unfold Routers.batch_convert.
  rewrite convert_batch_run.
  destruct (successes (batch_outcomes service requests w)) as [|r l] eqn:Hs; cbn.
  - split; [|split].
    + split; [intros _; apply successes_nil; exact Hs|reflexivity].
    + intros Hex. apply successes_nil in Hs. apply Exists_exists in Hex as (o & Hin & Hok).
      rewrite Forall_forall in Hs. specialize (Hs o Hin). congruence.
    + reflexivity.
  - split; [|split].
    + split; [discriminate|]. intros H. apply successes_nil in H. congruence.
    + reflexivity.
    + intros ->. discriminate Hs.
Qed.

Lemma route_batch_convert_statuses_witness :
  fst (Routers.batch_convert scenario_service batch_of_three fresh_world)
  = Routers.Reply (successes (batch_outcomes scenario_service batch_of_three fresh_world)).
Proof.
  destruct (route_batch_convert_statuses scenario_service batch_of_three fresh_world)
    as (_ & H & _).
  apply H. apply Exists_cons_hd. reflexivity.
Defined.

(** * Failures and odd rates of the client *)



(** A zero rate relative to EUR: asked for the pair from EUR, [get_rate]
    returns the zero entry as the rate, while [get_multiple_rates] leaves
    the target out (and fails when it was the only one). *)
Theorem zero_rate_from_eur self to_c w data x :
  to_c <> EUR ->
  provider w (http_sent w) (pair_params self EUR to_c) = Body data ->
  accepted data = true ->
  body_rates data !! value to_c = Some x ->
  Py.truthy x = false ->
  fst (ExchangeRateClient.get_rate self EUR to_c w) = Ok x
  /\ fst (ExchangeRateClient.get_multiple_rates self EUR [to_c] w)
     = Raise (ValueError (NoRatesFound EUR [to_c])).
Proof.
  intros Hne Hans Hacc Hx Hzero.
  assert (Hp : pair_params self EUR to_c
               = ExchangeRateClient.build_params self EUR (Some [to_c])) by reflexivity.
  split.
  - rewrite get_rate_run by congruence. cbn [fst].
    unfold rate_of_answer, snapshot_of. rewrite Hans, Hacc. cbn [rates].
    unfold pair_rate. destruct (decide (EUR = EUR)); [|congruence]. rewrite Hx. reflexivity.
  - rewrite get_multiple_rates_run. cbn [fst].
    assert (Hf : ExchangeRateClient.currencies_to_fetch EUR [to_c] = [to_c]).
    { unfold ExchangeRateClient.currencies_to_fetch. cbn.
      destruct (decide (EUR <> EUR)); [congruence|].
      destruct (decide (to_c <> EUR)); [reflexivity|contradiction]. }
    rewrite Hf, <- Hp, Hans. unfold snapshot_of. rewrite Hacc. cbn [fold_left].
    rewrite derive_into_derived. cbn [rates]. unfold derived_rate.
    destruct (decide (EUR = to_c)); [congruence|].
    destruct (decide (EUR = EUR)); [|congruence].
    rewrite Hx, Hzero. rewrite bool_decide_eq_true_2 by reflexivity. reflexivity.
Qed.

Lemma zero_rate_from_eur_witness :
  fst (ExchangeRateClient.get_rate scenario_client EUR GBP zero_rate_world) = Ok 0%float.
Proof.
  apply (zero_rate_from_eur scenario_client GBP zero_rate_world zero_rate_body 0%float);
    first [reflexivity | discriminate].
Defined.
